(** * KHR_materials_pbrSpecularGlossiness: the importer's node-tree builder

    A shallow embedding of
    [addons/io_scene_gltf2/blender/imp/KHR_materials_pbrSpecularGlossiness.py]
    (functions [glossiness], [pbr_specular_glossiness], [calc_locations])
    and the properties its specification states about them.

    Python floats are IEEE binary64, which is what Rocq's primitive [float]
    is, so float arithmetic is computed bit for bit.  Python ints are [Z].
    The material helper [mh] is mutated in place by the source; here it is a
    record threaded through a small state-and-exception monad. *)

From Stdlib Require Import ZArith Floats.
From stdpp Require Import base option list gmap strings.

Local Open Scope Z_scope.

(** ** Python numbers *)

Inductive pynum :=
| PyInt (z : Z)
| PyFloat (f : float).

(** [float(z)]: the nearest binary64 value, ties to even. *)
Definition float_of_Z (z : Z) : float :=
  SF2Prim (binary_normalize prec emax z 0 false).

(** The float a number stands for in a mixed int/float operation.  In this
    module the int operand of such an operation is always a literal or a
    stack height (at most 6 * 460), for which the conversion is exact. *)
Definition to_float (n : pynum) : float :=
  match n with
  | PyInt z => float_of_Z z
  | PyFloat f => f
  end.

(** [a + b], [a - b]: int with int stays an int, otherwise float. *)
Definition py_add (a b : pynum) : pynum :=
  match a, b with
  | PyInt x, PyInt y => PyInt (x + y)
  | _, _ => PyFloat (to_float a + to_float b)
  end.

Definition py_sub (a b : pynum) : pynum :=
  match a, b with
  | PyInt x, PyInt y => PyInt (x - y)
  | _, _ => PyFloat (to_float a - to_float b)
  end.

(** [-a]. *)
Definition py_neg (a : pynum) : pynum :=
  match a with
  | PyInt x => PyInt (- x)
  | PyFloat f => PyFloat (- f)
  end.

(** [a / b], true division: always a float.  The only divisor in the module
    is the literal 2. *)
Definition py_truediv (a b : pynum) : pynum :=
  PyFloat (to_float a / to_float b).

(** [a > b]. *)
Definition py_gt (a b : pynum) : bool :=
  match a, b with
  | PyInt x, PyInt y => bool_decide (y < x)
  | _, _ => (to_float b <? to_float a)%float
  end.

(** The builtins [min(a, b)] and [max(a, b)] on floats: the first argument
    is kept unless the second is strictly smaller (resp. greater). *)
Definition py_min (a b : float) : float :=
  if (b <? a)%float then b else a.

Definition py_max (a b : float) : float :=
  if (a <? b)%float then b else a.

(** ** JSON values, as [json.loads] delivers them

    [None] is [JNull]; a dict is a finite map from keys to values. *)

#[warnings="-register-all"]
Inductive json :=
| JNull
| JBool (b : bool)
| JNum (n : pynum)
| JStr (s : string)
| JArr (l : list json)
| JObj (m : gmap string json).

(** Truth value of a Python object, as tested by [if v]. *)
Definition truthy (v : json) : bool :=
  match v with
  | JNull => false
  | JBool b => b
  | JNum (PyInt z) => negb (z =? 0)
  | JNum (PyFloat f) => negb (f =? 0)%float
  | JStr s => negb (String.eqb s "")
  | JArr l => match l with [] => false | _ => true end
  | JObj m => negb (bool_decide (m = ∅))
  end.

(** [d.get(key, dflt)] and [key in d]. *)
Definition dict_get (d : gmap string json) (key : string) (dflt : json) : json :=
  default dflt (d !! key).

Definition dict_has (d : gmap string json) (key : string) : bool :=
  bool_decide (is_Some (d !! key)).

(** ** Exceptions *)

Inductive exn :=
| TypeError
| OverflowError
| KeyError
| AttributeError
| AssertionError.

Inductive result (A : Type) :=
| Ok (a : A)
| Err (e : exn).
Arguments Ok {A} a.
Arguments Err {A} e.

(** The number behind a JSON value in arithmetic; [bool] is a subclass of
    [int], anything else is a [TypeError]. *)
Definition as_number (v : json) : result pynum :=
  match v with
  | JNum n => Ok n
  | JBool b => Ok (PyInt (if b then 1 else 0))
  | _ => Err TypeError
  end.

(** [float(n)] where Python checks the range: an int too large for a
    binary64 raises [OverflowError]. *)
Definition checked_float (n : pynum) : result float :=
  match n with
  | PyFloat f => Ok f
  | PyInt z =>
      let f := float_of_Z z in
      if is_infinity f then Err OverflowError else Ok f
  end.

(** [a - v] for a float [a] and a JSON value [v]. *)
Definition float_minus (a : float) (v : json) : result float :=
  match as_number v with
  | Err e => Err e
  | Ok n =>
      match checked_float n with
      | Err e => Err e
      | Ok f => Ok (a - f)%float
      end
  end.

(** [v != 1.0].  An int is compared with a float exactly; values of other
    types are never equal to a float. *)
Definition ne_one (v : json) : bool :=
  match v with
  | JNum (PyFloat f) => negb (f =? 1)%float
  | JNum (PyInt z) => negb (z =? 1)
  | JBool b => negb b
  | _ => true
  end.

(** ** The host's node graph *)

Definition location : Type := pynum * pynum.

#[global] Instance location_inhabited : Inhabited location :=
  populate (PyInt 0, PyInt 0).

(** A socket is reached as [node.inputs[k]] or [node.outputs[k]], with [k]
    an index or a name. *)
Inductive sock_key :=
| Idx (i : nat)
| Name (s : string).

Record socket := Socket {
  sock_node : nat;
  sock_output : bool;
  sock_key_of : sock_key
}.

Definition inputs (node : nat) (k : sock_key) : socket := Socket node false k.
Definition outputs (node : nat) (k : sock_key) : socket := Socket node true k.

#[global] Instance sock_key_eq_dec : EqDecision sock_key.
Proof. solve_decision. Defined.

#[global] Instance sock_key_countable : Countable sock_key.
Proof.
  refine (inj_countable'
    (λ k, match k with Idx i => inl i | Name s => inr s end)
    (λ x, match x with inl i => Idx i | inr s => Name s end) _).
  by intros [].
Defined.

#[global] Instance socket_eq_dec : EqDecision socket.
Proof. solve_decision. Defined.

#[global] Instance socket_countable : Countable socket.
Proof.
  refine (inj_countable'
    (λ s, (sock_node s, sock_output s, sock_key_of s))
    (λ '(n, o, k), Socket n o k) _).
  by intros [].
Defined.

(** A node of the tree.  [bl_idname] is the type given to [nodes.new]; the
    other attributes are [None] until the importer assigns them (the host's
    own defaults are not modelled). *)
Record Node := mkNode {
  bl_idname : string;
  label : option string;
  operation : option string;
  node_location : option location;
  width : option pynum;
  use_clamp : option bool
}.

Definition fresh_node (type : string) : Node :=
  mkNode type None None None None None.

(** Modelled from the spec: [TextureInfo] is declared in io.com.gltf2_io,
    which is not part of this module; the spec describes it as a parsed
    reference to an image/texture plus a UV channel. *)
Record TextureInfo := mkTextureInfo {
  index : Z;
  tex_coord : option Z
}.

(** The glTF material record, as far as this module reads it. *)
Record Material := mkMaterial {
  occlusion_texture : option TextureInfo;
  normal_texture : option TextureInfo;
  extensions : gmap string (gmap string json)
}.

(** The material helper [mh].  [nodes] and [links] are the host's
    collections, a node's handle is its position in [nodes];
    [defaults] holds the [default_value] assigned to sockets. *)
Record MaterialHelper := mkMH {
  nodes : list Node;
  links : list (socket * socket);
  defaults : gmap socket json;
  settings_node : option nat;
  pymat : Material;
  vertex_color : bool;
  needs_emissive : bool
}.

(** Modelled from the spec: [get_ext] is a method of the helper class
    (declared in the sibling module pbrMetallicRoughness); the spec calls it
    an extension-lookup accessor returning the key/value mapping of a named
    glTF extension, here with the default the caller passes. *)
Definition get_ext (mh : MaterialHelper) (name : string)
    (dflt : gmap string json) : gmap string json :=
  default dflt (extensions (pymat mh) !! name).

Definition with_nodes (mh : MaterialHelper) (ns : list Node) : MaterialHelper :=
  mkMH ns (links mh) (defaults mh) (settings_node mh) (pymat mh)
       (vertex_color mh) (needs_emissive mh).

Definition with_links (mh : MaterialHelper) (ls : list (socket * socket))
    : MaterialHelper :=
  mkMH (nodes mh) ls (defaults mh) (settings_node mh) (pymat mh)
       (vertex_color mh) (needs_emissive mh).

Definition with_defaults (mh : MaterialHelper) (ds : gmap socket json)
    : MaterialHelper :=
  mkMH (nodes mh) (links mh) ds (settings_node mh) (pymat mh)
       (vertex_color mh) (needs_emissive mh).

Definition with_settings_node (mh : MaterialHelper) (s : option nat)
    : MaterialHelper :=
  mkMH (nodes mh) (links mh) (defaults mh) s (pymat mh)
       (vertex_color mh) (needs_emissive mh).

(** ** Statements: state that survives an exception *)

Inductive outcome (A : Type) :=
| Done (a : A) (mh : MaterialHelper)
| Raised (e : exn) (mh : MaterialHelper).
Arguments Done {A} a mh.
Arguments Raised {A} e mh.

Definition M (A : Type) : Type := MaterialHelper → outcome A.

#[global] Instance M_ret : MRet M := λ A a mh, Done a mh.

#[global] Instance M_bind : MBind M := λ A B k c mh,
  match c mh with
  | Done a mh' => k a mh'
  | Raised e mh' => Raised e mh'
  end.

(** The helper as the statement left it, finished or not. *)
Definition final {A} (o : outcome A) : MaterialHelper :=
  match o with
  | Done _ mh => mh
  | Raised _ mh => mh
  end.

Definition raises {A} (o : outcome A) : bool :=
  match o with
  | Done _ _ => false
  | Raised _ _ => true
  end.

(** An expression that may raise. *)
Definition eval {A} (r : result A) : M A := λ mh,
  match r with
  | Ok a => Done a mh
  | Err e => Raised e mh
  end.

(** A call into a sibling module that returns, which updates the helper.
    What a sub-builder may raise is its own, and is not part of this
    model: the properties below say what this module does around the
    calls, given that they return. *)
Definition call (f : MaterialHelper → MaterialHelper) : M unit :=
  λ mh, Done tt (f mh).

(** [mh.nodes.new(type)] *)
Definition nodes_new (type : string) : M nat := λ mh,
  Done (length (nodes mh)) (with_nodes mh (nodes mh ++ [fresh_node type])).

(** [mh.links.new(src, dst)] *)
Definition links_new (src dst : socket) : M unit := λ mh,
  Done tt (with_links mh (links mh ++ [(src, dst)])).

(** The float the host makes of a value assigned to a float socket: a
    number or a bool is converted; for a value it cannot convert the host
    raises [TypeError]. *)
Definition host_float (v : json) : result float :=
  match as_number v with
  | Ok n =>
      match checked_float n with
      | Ok f => Ok f
      | Err _ => Err TypeError
      end
  | Err _ => Err TypeError
  end.

(** [sock.default_value = v] on a float socket.  The sockets this module
    assigns are float sockets: the inputs of a math node and the
    'Roughness' and 'IOR' inputs of the shader node.  The host raises
    [TypeError] for a value that is no number, and the socket keeps what it
    held; [defaults] records the value as it was assigned. *)
Definition set_default_value (sock : socket) (v : json) : M unit := λ mh,
  match host_float v with
  | Ok _ => Done tt (with_defaults mh (<[sock := v]> (defaults mh)))
  | Err e => Raised e mh
  end.

Definition update_node (node : nat) (f : Node → Node) : M unit := λ mh,
  Done tt (with_nodes mh (alter f node (nodes mh))).

(** [node.label = s], [node.operation = s], [node.location = l],
    [node.width = w], [node.use_clamp = b] *)
Definition set_label (node : nat) (s : string) : M unit :=
  update_node node (λ n, mkNode (bl_idname n) (Some s) (operation n)
                                (node_location n) (width n) (use_clamp n)).

Definition set_operation (node : nat) (s : string) : M unit :=
  update_node node (λ n, mkNode (bl_idname n) (label n) (Some s)
                                (node_location n) (width n) (use_clamp n)).

Definition set_location (node : nat) (l : location) : M unit :=
  update_node node (λ n, mkNode (bl_idname n) (label n) (operation n)
                                (Some l) (width n) (use_clamp n)).

Definition set_width (node : nat) (w : pynum) : M unit :=
  update_node node (λ n, mkNode (bl_idname n) (label n) (operation n)
                                (node_location n) (Some w) (use_clamp n)).

Definition set_use_clamp (node : nat) (b : bool) : M unit :=
  update_node node (λ n, mkNode (bl_idname n) (label n) (operation n)
                                (node_location n) (width n) (Some b)).

(** [mh.settings_node = node] *)
Definition set_settings_node (node : nat) : M unit := λ mh,
  Done tt (with_settings_node mh (Some node)).

(** [locs[key]] *)
Definition locs_get (locs : gmap string location) (key : string) : M location :=
  eval (match locs !! key with Some l => Ok l | None => Err KeyError end).

(** [mh] itself, to read its attributes. *)
Definition get_mh : M MaterialHelper := λ mh, Done mh mh.

(** [o is not None] *)
Definition is_not_None {A} (o : option A) : bool :=
  match o with
  | Some _ => true
  | None => false
  end.

(** ** calc_locations *)

(** Lines 166-197: the blocks laid out top to bottom; the result is [locs]
    and the final [y]. *)
Definition stack_blocks (mh : MaterialHelper) (ext : gmap string json)
    : gmap string location * pynum :=
  let x := PyInt (-200) in
  let y := PyInt 0 in
  let height := PyInt 460 in
  let locs : gmap string location := ∅ in
  let locs := <["occlusion" := (x, y)]> locs in
  let y := if is_not_None (occlusion_texture (pymat mh))
           then py_sub y height else y in
  let locs := <["diffuse" := (x, y)]> locs in
  let y := if dict_has ext "diffuseTexture" || vertex_color mh
           then py_sub y height else y in
  let locs := <["glossiness" := (x, y)]> locs in
  let y := if dict_has ext "specularGlossinessTexture"
           then py_sub y height else y in
  let locs := <["normal" := (x, y)]> locs in
  let y := if is_not_None (normal_texture (pymat mh))
           then py_sub y height else y in
  let locs := <["specular" := (x, y)]> locs in
  let y := if dict_has ext "specularGlossinessTexture"
           then py_sub y height else y in
  let locs := <["emission" := (x, y)]> locs in
  let y := if needs_emissive mh then py_sub y height else y in
  (locs, y).

(** Lines 199-204: the offset that centers the stack. *)
Definition y_offset_of (y : pynum) : pynum :=
  let total_height := py_neg y in
  if py_gt total_height (PyInt 0)
  then py_sub (py_truediv total_height (PyInt 2)) (PyInt 20)
  else PyInt 0.

Definition calc_locations (mh : MaterialHelper) (ext : gmap string json)
    : gmap string location :=
  let '(locs, y) := stack_blocks mh ext in
  let y_offset := y_offset_of y in
  (λ '(cur_x, cur_y), (cur_x, py_add cur_y y_offset)) <$> locs.

(** Modelled from the spec: [make_settings_node] is defined in the sibling
    module pbrMetallicRoughness, which is not part of this module; the spec
    says it makes the shared settings node of the material.  It is a new
    node of the host's group type, and its handle is returned. *)
Definition make_settings_node : M nat := nodes_new "ShaderNodeGroup".

(** ** What the spec says of a value clamped to a range *)

(** [clamp(v, lo, hi)]: [lo] when [v] is at or below it, [hi] when [v] is
    at or above it, [v] itself in between. *)
Definition clamp (v lo hi : float) : float :=
  if (v <=? lo)%float then lo
  else if (hi <=? v)%float then hi
  else v.

(** ** Sub-builders that behave: what the importer relies on

    A sub-builder only adds nodes to the tree, none of them a settings
    node, and leaves [mh.settings_node] and the material record alone. *)
Definition is_settings (nd : Node) : bool :=
  String.eqb (bl_idname nd) "ShaderNodeGroup".

(** [grows mh mh']: [mh'] has the nodes of [mh], in place, and new ones
    after them, none of which is a settings node; it has the settings node
    and the material of [mh]. *)
Definition grows (mh mh' : MaterialHelper) : Prop :=
  (∃ added, nodes mh' = nodes mh ++ added ∧
            Forall (λ nd, is_settings nd = false) added) ∧
  settings_node mh' = settings_node mh ∧
  pymat mh' = pymat mh.

Definition Frame (f : MaterialHelper → MaterialHelper) : Prop :=
  ∀ mh, grows mh (f mh).

(** A sub-builder that does not reassign the default value of socket [s],
    a socket of a node that is in the tree when it is called. *)
Definition keeps_default (s : socket) (f : MaterialHelper → MaterialHelper)
    : Prop :=
  ∀ mh v, (sock_node s < length (nodes mh))%nat →
          defaults mh !! s = Some v → defaults (f mh) !! s = Some v.

(** How many settings nodes the tree holds. *)
Definition count_settings (mh : MaterialHelper) : nat :=
  length (filter (λ nd, is_settings nd = true) (nodes mh)).

(** ** Reference sub-builders

    Modelled from the spec: the sub-builders live in the sibling modules
    texture, material_utils, pbrMetallicRoughness and io.com.gltf2_io.  The
    definitions below give each the least behaviour the spec describes, to
    run the importer on concrete materials. *)
Module Sibling.

(** Modelled from the spec: a [TextureInfo] is built from the raw texture
    dict; the dict refers to the texture by ["index"] and may name a UV
    channel by ["texCoord"]. *)
Definition from_dict (obj : json) : result TextureInfo :=
  match obj with
  | JObj m =>
      match m !! "index" with
      | Some (JNum (PyInt i)) =>
          Ok (mkTextureInfo i
                match m !! "texCoord" with
                | Some (JNum (PyInt c)) => Some c
                | _ => None
                end)
      | _ => Err AssertionError
      end
  | _ => Err AssertionError
  end.

(** Modelled from the spec: the texture-node constructor takes a texture
    reference, a location, a label, the destination color and alpha sockets
    and the non-color flag; it makes an image node and routes its outputs
    into the sockets given.  (The image's color space belongs to the image
    node's host data and is not kept in the tree modelled here.) *)
Definition texture (tex_info : TextureInfo) (loc : location) (lab : string)
    (color_socket alpha_socket : option socket) (is_data : bool)
    (mh : MaterialHelper) : MaterialHelper :=
  final ((tex ← nodes_new "ShaderNodeTexImage";
          set_label tex lab;;
          set_location tex loc;;
          (if color_socket is Some s
           then links_new (outputs tex (Name "Color")) s else mret tt);;
          (if alpha_socket is Some s
           then links_new (outputs tex (Name "Alpha")) s else mret tt)) mh).

Definition no_texture : TextureInfo := mkTextureInfo 0 None.

(** Modelled from the spec: the factor of the factor+texture helper is a
    constant 3-vector, which goes to a color socket; the value is recorded
    as it is given. *)
Definition set_color_value (sock : socket) (v : json) : M unit := λ mh,
  Done tt (with_defaults mh (<[sock := v]> (defaults mh))).

(** Modelled from the spec: the factor+texture helper multiplies a constant
    factor with an optional texture sample; without a texture the factor is
    the socket's default value. *)
Definition color_factor_and_texture (loc : location) (lab : string)
    (sock : socket) (factor tex_info : json)
    (mh : MaterialHelper) : MaterialHelper :=
  if truthy tex_info
  then
    final ((mix ← nodes_new "ShaderNodeMix";
            set_label mix lab;;
            set_location mix loc;;
            set_operation mix "MULTIPLY";;
            set_color_value (inputs mix (Name "B")) factor;;
            links_new (outputs mix (Idx 0)) sock;;
            call (texture no_texture loc lab
                    (Some (inputs mix (Name "A"))) None false)) mh)
  else final (set_color_value sock factor mh).

(** Modelled from the spec: the base-color, emission, normal and occlusion
    sub-builders each target the sockets they are given, at the location
    they are given. *)
Definition base_color (is_diffuse : bool) (loc : location)
    (color_socket alpha_socket : socket) : MaterialHelper → MaterialHelper :=
  texture no_texture loc (if is_diffuse then "DIFFUSE" else "BASE COLOR")
    (Some color_socket) (Some alpha_socket) false.

Definition emission (loc : location) (color_socket strength_socket : socket)
    (mh : MaterialHelper) : MaterialHelper :=
  if needs_emissive mh
  then texture no_texture loc "EMISSIVE" (Some color_socket) None false
         (final (set_default_value strength_socket (JNum (PyFloat 1)) mh))
  else mh.

Definition normal (loc : location) (normal_socket : socket)
    (mh : MaterialHelper) : MaterialHelper :=
  if is_not_None (normal_texture (pymat mh))
  then
    final ((nm ← nodes_new "ShaderNodeNormalMap";
            set_location nm loc;;
            links_new (outputs nm (Name "Normal")) normal_socket;;
            call (texture no_texture loc "NORMALMAP"
                    (Some (inputs nm (Name "Color"))) None true)) mh)
  else mh.

Definition occlusion (loc : location) (occlusion_socket : socket)
    : MaterialHelper → MaterialHelper :=
  texture no_texture loc "OCCLUSION" (Some occlusion_socket) None true.

End Sibling.

(** ** The blocks of the layout *)

(** The six blocks, in the order [calc_locations] stacks them. *)
Inductive block :=
| Occlusion | Diffuse | Glossiness | Normal | Specular | Emission.

#[global] Instance block_eq_dec : EqDecision block.
Proof. solve_decision. Defined.

Definition block_order : list block :=
  [Occlusion; Diffuse; Glossiness; Normal; Specular; Emission].

Definition block_key (b : block) : string :=
  match b with
  | Occlusion => "occlusion"
  | Diffuse => "diffuse"
  | Glossiness => "glossiness"
  | Normal => "normal"
  | Specular => "specular"
  | Emission => "emission"
  end.

(** The condition under which [calc_locations] moves [y] down after it has
    recorded the block's location. *)
Definition active (mh : MaterialHelper) (ext : gmap string json) (b : block)
    : bool :=
  match b with
  | Occlusion => is_not_None (occlusion_texture (pymat mh))
  | Diffuse => dict_has ext "diffuseTexture" || vertex_color mh
  | Glossiness => dict_has ext "specularGlossinessTexture"
  | Normal => is_not_None (normal_texture (pymat mh))
  | Specular => dict_has ext "specularGlossinessTexture"
  | Emission => needs_emissive mh
  end.

(** The y-coordinate [calc_locations] gives a block. *)
Definition block_y (mh : MaterialHelper) (ext : gmap string json) (b : block)
    : option pynum :=
  snd <$> calc_locations mh ext !! block_key b.

(** What the spec says of the centering: every block is moved by half the
    total stacked height minus 20. *)
Definition claimed_shift (total_height : pynum) : pynum :=
  py_sub (py_truediv total_height (PyInt 2)) (PyInt 20).

Definition shifted_by (off : pynum) (locs : gmap string location)
    : gmap string location :=
  (λ '(x, y), (x, py_add y off)) <$> locs.

(** The [y] reached from [y0] once blocks with the given activity have been
    stacked: each active one takes a block height of 460. *)
Definition descend (y0 : pynum) (cs : list bool) : pynum :=
  foldl (λ y (c : bool), if c then py_sub y (PyInt 460) else y) y0 cs.

Definition blocks_before (b : block) : list block :=
  match b with
  | Occlusion => []
  | Diffuse => [Occlusion]
  | Glossiness => [Occlusion; Diffuse]
  | Normal => [Occlusion; Diffuse; Glossiness]
  | Specular => [Occlusion; Diffuse; Glossiness; Normal]
  | Emission => [Occlusion; Diffuse; Glossiness; Normal; Specular]
  end.

(** The y of a block as it is laid out, before the stack is centered, and
    the y below the last block. *)
Definition stacked_y (mh : MaterialHelper) (ext : gmap string json)
    (b : block) : pynum :=
  descend (PyInt 0) (active mh ext <$> blocks_before b).

Definition stacked_end (mh : MaterialHelper) (ext : gmap string json)
    : pynum :=
  descend (PyInt 0) (active mh ext <$> block_order).

(** ** Concrete materials *)

(** A material without textures or extensions, and a helper with an empty
    tree. *)
Definition plain_material : Material := mkMaterial None None ∅.

Definition empty_helper (pm : Material) : MaterialHelper :=
  mkMH [] [] ∅ None pm false false.

(** A raw texture dict that refers to texture 0. *)
Definition texture_dict : json := JObj {["index" := JNum (PyInt 0)]}.

(** A material with an occlusion texture; a helper for it that carries no
    settings node, and one whose tree already holds a settings node, placed
    at (0, 0) with width 140, that the helper carries. *)
Definition occluded_material : Material :=
  mkMaterial (Some (mkTextureInfo 1 None)) None ∅.

Definition occluded_helper : MaterialHelper :=
  empty_helper occluded_material.

Definition placed_settings_node : Node :=
  mkNode "ShaderNodeGroup" None None (Some (PyInt 0, PyInt 0))
    (Some (PyInt 140)) None.

Definition settings_helper : MaterialHelper :=
  mkMH [placed_settings_node] [] ∅ (Some 0%nat) occluded_material false false.

(** Extension dicts: a texture alone, a texture with the factor 0.5, and the
    texture key bound to [None]. *)
Definition ext_texture : gmap string json :=
  {["specularGlossinessTexture" := texture_dict]}.

Definition ext_texture_half : gmap string json :=
  <["glossinessFactor" := JNum (PyFloat 0.5)]> ext_texture.

Definition ext_null_texture : gmap string json :=
  {["specularGlossinessTexture" := JNull]}.

(** How many math nodes the tree holds. *)
Definition count_math (mh : MaterialHelper) : nat :=
  length (filter (λ nd, bl_idname nd = "ShaderNodeMath") (nodes mh)).

Section Importer.

(** The sub-builders of the sibling modules (pbrMetallicRoughness,
    material_utils, texture) and the parser of io.com.gltf2_io.  They are
    not part of this module: each is a parameter, with the arguments in the
    order of the call sites.  A sub-builder updates the helper and
    returns. *)
Variable from_dict : json → result TextureInfo.
Variable texture :
  TextureInfo → location → string → option socket → option socket → bool →
  MaterialHelper → MaterialHelper.
Variable base_color :
  bool → location → socket → socket → MaterialHelper → MaterialHelper.
Variable emission :
  location → socket → socket → MaterialHelper → MaterialHelper.
Variable normal : location → socket → MaterialHelper → MaterialHelper.
Variable occlusion : location → socket → MaterialHelper → MaterialHelper.
Variable color_factor_and_texture :
  location → string → socket → json → json → MaterialHelper → MaterialHelper.

(** ** glossiness *)

Definition glossiness (ext : gmap string json) (loc : location)
    (roughness_socket : socket) : M unit :=
  let factor := dict_get ext "glossinessFactor" (JNum (PyFloat 1)) in
  let tex_info_dict := dict_get ext "specularGlossinessTexture" JNull in
  tex_info ← (if truthy tex_info_dict
              then ti ← eval (from_dict tex_info_dict); mret (Some ti)
              else mret None);
  let '(x, y) := loc in
  match tex_info with
  | None =>
      d ← eval (float_minus 1 factor);
      set_default_value roughness_socket
        (JNum (PyFloat (py_max 0 (py_min 1 d))))
  | Some tex_info =>
      subtract_node ← nodes_new "ShaderNodeMath";
      set_label subtract_node "1 - Glossiness";;
      set_operation subtract_node "SUBTRACT";;
      set_location subtract_node
        (py_sub x (PyInt 140), py_sub y (PyInt 50));;
      set_default_value (inputs subtract_node (Idx 0)) (JNum (PyFloat 1));;
      set_use_clamp subtract_node true;;
      links_new (outputs subtract_node (Idx 0)) roughness_socket;;
      let glossiness_input_socket := inputs subtract_node (Idx 1) in
      '(current_gloss_value_socket, x_texture) ←
        (if ne_one factor
         then
           multiply_node ← nodes_new "ShaderNodeMath";
           set_label multiply_node "Glossiness Factor";;
           set_operation multiply_node "MULTIPLY";;
           set_location multiply_node (py_sub x (PyInt 340), y);;
           set_default_value (inputs multiply_node (Idx 1)) factor;;
           set_use_clamp multiply_node true;;
           links_new (outputs multiply_node (Idx 0)) glossiness_input_socket;;
           mret (inputs multiply_node (Idx 0), py_sub x (PyInt 540))
         else
           mret (glossiness_input_socket, py_sub x (PyInt 340)));
      call (texture tex_info (x_texture, y) "SPECULAR GLOSSINESS"
              None (Some current_gloss_value_socket) true)
  end.

(** ** pbr_specular_glossiness *)

Definition pbr_specular_glossiness : M unit :=
  mh ← get_mh;
  let ext := get_ext mh "KHR_materials_pbrSpecularGlossiness" ∅ in
  pbr_node ← nodes_new "ShaderNodeBsdfPrincipled";
  out_node ← nodes_new "ShaderNodeOutputMaterial";
  set_location pbr_node (PyInt 10, PyInt 300);;
  set_location out_node (PyInt 300, PyInt 300);;
  links_new (outputs pbr_node (Idx 0)) (inputs out_node (Idx 0));;
  mh ← get_mh;
  let locs := calc_locations mh ext in
  l ← locs_get locs "diffuse";
  call (base_color true l (inputs pbr_node (Name "Base Color"))
          (inputs pbr_node (Name "Alpha")));;
  l ← locs_get locs "emission";
  call (emission l (inputs pbr_node (Name "Emission Color"))
          (inputs pbr_node (Name "Emission Strength")));;
  l ← locs_get locs "normal";
  call (normal l (inputs pbr_node (Name "Normal")));;
  mh ← get_mh;
  (if is_not_None (occlusion_texture (pymat mh))
   then
     (if settings_node mh is None
      then
        node ← make_settings_node;
        set_settings_node node;;
        set_location node (PyInt 10, PyInt 425);;
        set_width node (PyInt 240)
      else mret tt);;
     l ← locs_get locs "occlusion";
     mh ← get_mh;
     match settings_node mh with
     | Some node => call (occlusion l (inputs node (Name "Occlusion")))
     | None => eval (Err AttributeError)
     end
   else mret tt);;
  set_default_value (inputs pbr_node (Name "IOR")) (JNum (PyInt 1000));;
  l ← locs_get locs "specular";
  call (color_factor_and_texture l "Specular Color"
          (inputs pbr_node (Name "Specular Tint"))
          (dict_get ext "specularFactor"
             (JArr [JNum (PyInt 1); JNum (PyInt 1); JNum (PyInt 1)]))
          (dict_get ext "specularGlossinessTexture" JNull));;
  l ← locs_get locs "glossiness";
  glossiness ext l (inputs pbr_node (Name "Roughness")).

(** ** The helper at points of [pbr_specular_glossiness]

    The definitions below name the state of the helper along the run, to
    state properties of it; [pbr_run] shows that they are what the function
    computes. *)

(** After lines 98-102: the shader and output nodes, placed and linked. *)
Definition pbr_skeleton (mh : MaterialHelper) : MaterialHelper :=
  let pbr_node := length (nodes mh) in
  let out_node := S pbr_node in
  mkMH (nodes mh ++
          [mkNode "ShaderNodeBsdfPrincipled" None None
             (Some (PyInt 10, PyInt 300)) None None;
           mkNode "ShaderNodeOutputMaterial" None None
             (Some (PyInt 300, PyInt 300)) None None])
       (links mh ++ [(outputs pbr_node (Idx 0), inputs out_node (Idx 0))])
       (defaults mh) (settings_node mh) (pymat mh) (vertex_color mh)
       (needs_emissive mh).

(** After lines 106-125: base color, emission and normal are built. *)
Definition pbr_blocks (mh : MaterialHelper) : MaterialHelper :=
  let ext := get_ext mh "KHR_materials_pbrSpecularGlossiness" ∅ in
  let locs := calc_locations mh ext in
  let pbr_node := length (nodes mh) in
  normal (locs !!! "normal") (inputs pbr_node (Name "Normal"))
    (emission (locs !!! "emission")
       (inputs pbr_node (Name "Emission Color"))
       (inputs pbr_node (Name "Emission Strength"))
       (base_color true (locs !!! "diffuse")
          (inputs pbr_node (Name "Base Color"))
          (inputs pbr_node (Name "Alpha"))
          (pbr_skeleton mh))).

(** Lines 127-136 as a function of the helper they start from. *)
Definition occlusion_block (l : location) (mh : MaterialHelper)
    : MaterialHelper :=
  if is_not_None (occlusion_texture (pymat mh))
  then
    match settings_node mh with
    | Some node => occlusion l (inputs node (Name "Occlusion")) mh
    | None =>
        let node := length (nodes mh) in
        occlusion l (inputs node (Name "Occlusion"))
          (mkMH (nodes mh ++
                   [mkNode "ShaderNodeGroup" None None
                      (Some (PyInt 10, PyInt 425)) (Some (PyInt 240)) None])
                (links mh) (defaults mh) (Some node) (pymat mh)
                (vertex_color mh) (needs_emissive mh))
    end
  else mh.

(** After line 141: the occlusion block is done and the IOR is set. *)
Definition pbr_ior (mh : MaterialHelper) : MaterialHelper :=
  let ext := get_ext mh "KHR_materials_pbrSpecularGlossiness" ∅ in
  let locs := calc_locations mh ext in
  let pbr_node := length (nodes mh) in
  let mh4 := occlusion_block (locs !!! "occlusion") (pbr_blocks mh) in
  with_defaults mh4
    (<[inputs pbr_node (Name "IOR") := JNum (PyInt 1000)]> (defaults mh4)).

(** After line 151: the specular color is built. *)
Definition pbr_specular (mh : MaterialHelper) : MaterialHelper :=
  let ext := get_ext mh "KHR_materials_pbrSpecularGlossiness" ∅ in
  let locs := calc_locations mh ext in
  let pbr_node := length (nodes mh) in
  color_factor_and_texture (locs !!! "specular") "Specular Color"
    (inputs pbr_node (Name "Specular Tint"))
    (dict_get ext "specularFactor"
       (JArr [JNum (PyInt 1); JNum (PyInt 1); JNum (PyInt 1)]))
    (dict_get ext "specularGlossinessTexture" JNull)
    (pbr_ior mh).

(** * Properties *)

(** ** Comparisons of binary64 values against 0 and 1 *)

Lemma SF_zero : Prim2SF 0 = S754_zero false.
Proof. reflexivity. Qed.

Lemma SF_one : Prim2SF 1 = S754_finite false 4503599627370496 (-52).
Proof. reflexivity. Qed.

Lemma SFcompare_antisym (x y : spec_float) :
  SFcompare y x = CompOpp <$> SFcompare x y.
Proof.
  destruct x as [sx|sx| |sx mx ex], y as [sy|sy| |sy my ey]; simpl; try done;
    try (by destruct sx); try (by destruct sy); try (by destruct sx, sy).
  f_equal. rewrite (Z.compare_antisym ey ex).
  change (PosDef.Pos.compare_cont Eq my mx) with (Pos.compare my mx).
  change (PosDef.Pos.compare_cont Eq mx my) with (Pos.compare mx my).
  rewrite (Pos.compare_antisym my mx).
  destruct sx, sy; simpl; try done; destruct (ey ?= ex); simpl; try done;
    destruct (my ?= mx)%positive; done.
Qed.

(** Where an ordered value [x] lies with respect to zero and to a positive
    finite value [o]. *)
Lemma SF_unit_cases (x : spec_float) (mo : positive) (eo : Z) :
  let z := S754_zero false in
  let o := S754_finite false mo eo in
  SFeqb x x = true →
  if SFleb x z then SFltb x o = true ∧ SFltb z x = false
  else if SFleb o x then SFltb x o = false
  else SFltb x o = true ∧ SFltb z x = true.
Proof.
  intros z o. unfold SFeqb, SFleb, SFltb.
  rewrite (SFcompare_antisym x o), (SFcompare_antisym x z).
  destruct x as [s|s| |s m e]; simpl; try done; try (by destruct s).
  destruct s; simpl; try done.
  destruct (e ?= eo); simpl; try done.
  by destruct (PosDef.Pos.compare_cont Eq m mo).
Qed.

(** The nested [max(0.0, min(1.0, v))] of the source is the clamp of the
    spec on every float that is a number. *)
Lemma max_min_is_clamp (v : float) :
  is_nan v = false → py_max 0 (py_min 1 v) = clamp v 0 1.
Proof.
  unfold is_nan, py_max, py_min, clamp. intros Hnan.
  apply negb_false_iff in Hnan.
  rewrite FloatAxioms.eqb_spec in Hnan.
  pose proof (SF_unit_cases _ 4503599627370496 (-52) Hnan) as H.
  cbv zeta in H.
  rewrite <- SF_zero, <- SF_one, <- !ltb_spec, <- !leb_spec in H.
  destruct (v <=? 0)%float.
  - destruct H as [-> ->]. reflexivity.
  - destruct (1 <=? v)%float.
    + rewrite H. reflexivity.
    + destruct H as [-> ->]. reflexivity.
Qed.

Lemma SFltb_leb (x y : spec_float) : SFltb x y = true → SFleb x y = true.
Proof. unfold SFltb, SFleb. by destruct (SFcompare x y) as [[]|]. Qed.

(** Whatever [v] is, a NaN included, the value the source computes lies
    in [0, 1]. *)
Lemma max_min_in_unit (v : float) :
  (0 <=? py_max 0 (py_min 1 v))%float = true ∧
  (py_max 0 (py_min 1 v) <=? 1)%float = true.
Proof.
  unfold py_max, py_min.
  destruct (v <? 1)%float eqn:H1.
  - destruct (0 <? v)%float eqn:H0.
    + rewrite ltb_spec in H0, H1. rewrite !leb_spec. split; by apply SFltb_leb.
    + split; reflexivity.
  - split; reflexivity.
Qed.

(** ** Running statements *)

Lemma alter_fresh {A} (f : A → A) (l : list A) (x : A) (r : list A) :
  alter f (length l) (l ++ x :: r) = l ++ f x :: r.
Proof.
  induction l as [|a l IH]; simpl; [done|]. f_equal. exact IH.
Qed.

Lemma alter_fresh_next {A} (f : A → A) (l : list A) (x y : A) (r : list A) :
  alter f (S (length l)) (l ++ x :: y :: r) = l ++ x :: f y :: r.
Proof.
  induction l as [|a l IH]; simpl; [done|]. f_equal. exact IH.
Qed.

(** What the host makes of the values the module assigns. *)
Lemma host_float_float (f : float) : host_float (JNum (PyFloat f)) = Ok f.
Proof. reflexivity. Qed.

Lemma host_float_1000 : host_float (JNum (PyInt 1000)) = Ok 1000%float.
Proof. reflexivity. Qed.

Lemma host_float_error (v : json) (e : exn) :
  host_float v = Err e → e = TypeError.
Proof.
  unfold host_float. destruct (as_number v) as [n|]; [|by intros [= <-]].
  destruct (checked_float n); [discriminate|by intros [= <-]].
Qed.

(** Projections that reduction has unfolded are folded back. *)
Ltac refold :=
  repeat match goal with
  | |- context [match ?m with mkMH _ _ _ _ _ _ _ => _ end] =>
      progress fold (nodes m) (links m) (defaults m) (settings_node m)
        (pymat m) (vertex_color m) (needs_emissive m)
  end.

(** Symbolic execution of a statement: the monad and the host's primitives
    are computed, lists of new nodes are put in the form [l ++ [a; b]], and
    the attributes assigned to a new node are written into it. *)
Ltac run :=
  repeat (progress (
    cbv beta iota zeta delta
      [mbind M_bind mret M_ret eval call nodes_new links_new
       set_default_value set_label set_operation set_location set_width
       set_use_clamp set_settings_node update_node get_mh make_settings_node
       Sibling.set_color_value
       locs_get with_nodes with_links with_defaults with_settings_node
       nodes links defaults settings_node pymat vertex_color needs_emissive
       final raises fresh_node
       bl_idname label operation node_location width use_clamp];
    refold;
    rewrite <- ?(assoc_L (++));
    rewrite ?length_app, ?Nat.add_1_r;
    cbn [app length Nat.add];
    rewrite ?alter_fresh, ?alter_fresh_next;
    rewrite ?host_float_float, ?host_float_1000)).

(** ** glossiness *)

(** The run of [glossiness] when no texture is bound. *)
Lemma glossiness_unbound_run (ext : gmap string json) (loc : location)
    (roughness_socket : socket) (mh : MaterialHelper) :
  truthy (dict_get ext "specularGlossinessTexture" JNull) = false →
  glossiness ext loc roughness_socket mh =
    match float_minus 1 (dict_get ext "glossinessFactor" (JNum (PyFloat 1))) with
    | Ok d =>
        Done tt (with_defaults mh
          (<[roughness_socket := JNum (PyFloat (py_max 0 (py_min 1 d)))]>
             (defaults mh)))
    | Err e => Raised e mh
    end.
Proof.
  intros Htex. unfold glossiness. rewrite Htex. destruct loc as [x y].
  destruct (float_minus _ _); by run.
Qed.

(** The run of [glossiness] when a texture is bound, up to the call of the
    texture constructor, or up to line 69 when the host does not take the
    factor: the multiply node is then made, labelled and placed, its clamp
    flag is not set, and it is not linked. *)
Lemma glossiness_bound_run (ext : gmap string json) (x y : pynum)
    (roughness_socket : socket) (mh : MaterialHelper) (ti : TextureInfo) :
  truthy (dict_get ext "specularGlossinessTexture" JNull) = true →
  from_dict (dict_get ext "specularGlossinessTexture" JNull) = Ok ti →
  let factor := dict_get ext "glossinessFactor" (JNum (PyFloat 1)) in
  let sub := length (nodes mh) in
  let mul := S sub in
  let subtract_node :=
    mkNode "ShaderNodeMath" (Some "1 - Glossiness") (Some "SUBTRACT")
      (Some (py_sub x (PyInt 140), py_sub y (PyInt 50))) None (Some true) in
  let multiply_node :=
    mkNode "ShaderNodeMath" (Some "Glossiness Factor") (Some "MULTIPLY")
      (Some (py_sub x (PyInt 340), y)) None (Some true) in
  let multiply_made :=
    mkNode "ShaderNodeMath" (Some "Glossiness Factor") (Some "MULTIPLY")
      (Some (py_sub x (PyInt 340), y)) None None in
  glossiness ext (x, y) roughness_socket mh =
    if ne_one factor
    then
      match host_float factor with
      | Ok _ =>
          Done tt
            (texture ti (py_sub x (PyInt 540), y) "SPECULAR GLOSSINESS"
               None (Some (inputs mul (Idx 0))) true
               (mkMH (nodes mh ++ [subtract_node; multiply_node])
                  (links mh ++ [(outputs sub (Idx 0), roughness_socket);
                                (outputs mul (Idx 0), inputs sub (Idx 1))])
                  (<[inputs mul (Idx 1) := factor]>
                     (<[inputs sub (Idx 0) := JNum (PyFloat 1)]>
                        (defaults mh)))
                  (settings_node mh) (pymat mh) (vertex_color mh)
                  (needs_emissive mh)))
      | Err e =>
          Raised e
            (mkMH (nodes mh ++ [subtract_node; multiply_made])
               (links mh ++ [(outputs sub (Idx 0), roughness_socket)])
               (<[inputs sub (Idx 0) := JNum (PyFloat 1)]> (defaults mh))
               (settings_node mh) (pymat mh) (vertex_color mh)
               (needs_emissive mh))
      end
    else
      Done tt
        (texture ti (py_sub x (PyInt 340), y) "SPECULAR GLOSSINESS"
           None (Some (inputs sub (Idx 1))) true
           (mkMH (nodes mh ++ [subtract_node])
              (links mh ++ [(outputs sub (Idx 0), roughness_socket)])
              (<[inputs sub (Idx 0) := JNum (PyFloat 1)]> (defaults mh))
              (settings_node mh) (pymat mh) (vertex_color mh)
              (needs_emissive mh))).
Proof.
  intros Htex Hti factor sub mul subtract_node multiply_node multiply_made.
  unfold glossiness. rewrite Htex, Hti. fold factor.
  destruct (ne_one factor); [|by run].
  destruct (host_float factor) as [f|e] eqn:Hf;
    run; rewrite ?Hf; run; reflexivity.
Qed.

Lemma count_math_app (mh : MaterialHelper) (ns : list Node) ls ds :
  count_math (mkMH (nodes mh ++ ns) ls ds (settings_node mh) (pymat mh)
                (vertex_color mh) (needs_emissive mh)) =
  (count_math mh + length (filter (λ nd, bl_idname nd = "ShaderNodeMath") ns))%nat.
Proof. unfold count_math. cbn [nodes]. by rewrite filter_app, length_app. Qed.

(** C1. With no texture bound (key absent, or bound to a falsy value) and a
    factor that is a number, [glossiness] creates no node and no link, and
    assigns the roughness socket the default value
    [clamp(1 - glossinessFactor, 0, 1)], which lies in [0, 1]; the factor
    is 1.0 when the key is absent, which makes the roughness 0.0. *)
Theorem glossiness_without_texture
    (ext : gmap string json) (loc : location) (roughness_socket : socket)
    (mh : MaterialHelper) (n : pynum) (f : float) :
  truthy (dict_get ext "specularGlossinessTexture" JNull) = false →
  as_number (dict_get ext "glossinessFactor" (JNum (PyFloat 1))) = Ok n →
  checked_float n = Ok f →
  is_nan (1 - f) = false →
  let r := clamp (1 - f) 0 1 in
  glossiness ext loc roughness_socket mh =
    Done tt (with_defaults mh
               (<[roughness_socket := JNum (PyFloat r)]> (defaults mh))) ∧
  nodes (final (glossiness ext loc roughness_socket mh)) = nodes mh ∧
  links (final (glossiness ext loc roughness_socket mh)) = links mh ∧
  (0 <=? r)%float = true ∧ (r <=? 1)%float = true ∧
  (ext !! "glossinessFactor" = None → f = 1%float ∧ r = 0%float).
Proof.
  intros Htex Hnum Hflt Hnan r.
  assert (Hrun : glossiness ext loc roughness_socket mh =
    Done tt (with_defaults mh
               (<[roughness_socket := JNum (PyFloat r)]> (defaults mh)))).
  { rewrite (glossiness_unbound_run _ _ _ _ Htex).
    unfold float_minus. rewrite Hnum, Hflt.
    by rewrite (max_min_is_clamp _ Hnan). }
  rewrite Hrun. split; [done|]. split; [done|]. split; [done|].
  subst r. rewrite <- (max_min_is_clamp _ Hnan).
  destruct (max_min_in_unit (1 - f)) as [Hlo Hhi].
  split; [done|]. split; [done|].
  intros Habs. unfold dict_get in Hnum. rewrite Habs in Hnum.
  simpl in Hnum. injection Hnum as <-. simpl in Hflt. injection Hflt as <-.
  split; reflexivity.
Qed.

(** C2. With a texture bound and a factor equal to 1.0, [glossiness] adds
    exactly one node to the tree before it calls the texture constructor: a
    math node with operation SUBTRACT and clamped output, whose input 0 has
    the default value 1.0 and whose output is linked to the roughness
    socket.  The texture constructor is called as non-color data, with no
    color socket and with input 1 of that node as destination of the alpha
    channel.  No MULTIPLY node is made. *)
Theorem glossiness_texture_factor_one
    (ext : gmap string json) (x y : pynum) (roughness_socket : socket)
    (mh : MaterialHelper) (ti : TextureInfo) :
  truthy (dict_get ext "specularGlossinessTexture" JNull) = true →
  from_dict (dict_get ext "specularGlossinessTexture" JNull) = Ok ti →
  ne_one (dict_get ext "glossinessFactor" (JNum (PyFloat 1))) = false →
  let sub := length (nodes mh) in
  let subtract_node :=
    mkNode "ShaderNodeMath" (Some "1 - Glossiness") (Some "SUBTRACT")
      (Some (py_sub x (PyInt 140), py_sub y (PyInt 50))) None (Some true) in
  let built :=
    mkMH (nodes mh ++ [subtract_node])
      (links mh ++ [(outputs sub (Idx 0), roughness_socket)])
      (<[inputs sub (Idx 0) := JNum (PyFloat 1)]> (defaults mh))
      (settings_node mh) (pymat mh) (vertex_color mh) (needs_emissive mh) in
  glossiness ext (x, y) roughness_socket mh =
    Done tt (texture ti (py_sub x (PyInt 340), y) "SPECULAR GLOSSINESS"
               None (Some (inputs sub (Idx 1))) true built) ∧
  count_math built = S (count_math mh) ∧
  Forall (λ nd, operation nd ≠ Some "MULTIPLY")
    (drop (length (nodes mh)) (nodes built)).
Proof.
  intros Htex Hti Hone sub subtract_node built.
  rewrite (glossiness_bound_run _ _ _ _ _ _ Htex Hti), Hone.
  split; [done|]. split.
  - unfold built. rewrite count_math_app.
    set (k := length (filter _ _)). vm_compute in k. lia.
  - unfold built. cbn [nodes]. rewrite drop_app_length.
    by repeat constructor.
Qed.

(** C3. With a texture bound and a factor that is a number different from
    1.0, [glossiness] adds exactly two nodes before it calls the texture
    constructor, both math nodes with clamped output: the SUBTRACT node of
    C2 (input 0 at 1.0, output linked to the roughness socket) and a
    MULTIPLY node whose input 1 has the factor as default value and whose
    output is linked to input 1 of the SUBTRACT node.  The texture
    constructor is called as non-color data with input 0 of the MULTIPLY
    node as destination of the alpha channel. *)
Theorem glossiness_texture_other_factor
    (ext : gmap string json) (x y : pynum) (roughness_socket : socket)
    (mh : MaterialHelper) (ti : TextureInfo) (f : float) :
  truthy (dict_get ext "specularGlossinessTexture" JNull) = true →
  from_dict (dict_get ext "specularGlossinessTexture" JNull) = Ok ti →
  ne_one (dict_get ext "glossinessFactor" (JNum (PyFloat 1))) = true →
  host_float (dict_get ext "glossinessFactor" (JNum (PyFloat 1))) = Ok f →
  let factor := dict_get ext "glossinessFactor" (JNum (PyFloat 1)) in
  let sub := length (nodes mh) in
  let mul := S sub in
  let subtract_node :=
    mkNode "ShaderNodeMath" (Some "1 - Glossiness") (Some "SUBTRACT")
      (Some (py_sub x (PyInt 140), py_sub y (PyInt 50))) None (Some true) in
  let multiply_node :=
    mkNode "ShaderNodeMath" (Some "Glossiness Factor") (Some "MULTIPLY")
      (Some (py_sub x (PyInt 340), y)) None (Some true) in
  let built :=
    mkMH (nodes mh ++ [subtract_node; multiply_node])
      (links mh ++ [(outputs sub (Idx 0), roughness_socket);
                    (outputs mul (Idx 0), inputs sub (Idx 1))])
      (<[inputs mul (Idx 1) := factor]>
         (<[inputs sub (Idx 0) := JNum (PyFloat 1)]> (defaults mh)))
      (settings_node mh) (pymat mh) (vertex_color mh) (needs_emissive mh) in
  glossiness ext (x, y) roughness_socket mh =
    Done tt (texture ti (py_sub x (PyInt 540), y) "SPECULAR GLOSSINESS"
               None (Some (inputs mul (Idx 0))) true built) ∧
  count_math built = S (S (count_math mh)) ∧
  defaults built !! inputs mul (Idx 1) = Some factor ∧
  defaults built !! inputs sub (Idx 0) = Some (JNum (PyFloat 1)).
Proof.
  intros Htex Hti Hne Hnum factor sub mul subtract_node multiply_node built.
  rewrite (glossiness_bound_run _ _ _ _ _ _ Htex Hti).
  unfold factor in *. rewrite Hne, Hnum. split; [done|]. split; [|split].
  - unfold built. rewrite count_math_app.
    set (k := length (filter _ _)). vm_compute in k. lia.
  - unfold built. cbn [defaults]. by rewrite lookup_insert_eq.
  - unfold built. cbn [defaults].
    rewrite lookup_insert_ne; [by rewrite lookup_insert_eq|].
    unfold inputs, mul. intros [=]; lia.
Qed.


(** ** calc_locations *)

Lemma stack_blocks_end (mh : MaterialHelper) (ext : gmap string json) :
  (stack_blocks mh ext).2 = stacked_end mh ext.
Proof. reflexivity. Qed.

Lemma stack_blocks_lookup (mh : MaterialHelper) (ext : gmap string json)
    (b : block) :
  (stack_blocks mh ext).1 !! block_key b =
  Some (PyInt (-200), stacked_y mh ext b).
Proof.
  unfold stack_blocks. cbn [fst].
  destruct b; cbn [block_key];
    rewrite ?lookup_insert_ne by done; by rewrite lookup_insert_eq.
Qed.

Lemma calc_locations_shift (mh : MaterialHelper) (ext : gmap string json) :
  calc_locations mh ext =
  shifted_by (y_offset_of (stack_blocks mh ext).2) (stack_blocks mh ext).1.
Proof. unfold calc_locations. by destruct (stack_blocks mh ext). Qed.

(** Where [calc_locations] puts a block. *)
Lemma calc_locations_lookup (mh : MaterialHelper) (ext : gmap string json)
    (b : block) :
  calc_locations mh ext !! block_key b =
  Some (PyInt (-200),
        py_add (stacked_y mh ext b) (y_offset_of (stacked_end mh ext))).
Proof.
  rewrite calc_locations_shift. unfold shifted_by.
  by rewrite lookup_fmap, stack_blocks_lookup, stack_blocks_end.
Qed.

Lemma block_y_eq (mh : MaterialHelper) (ext : gmap string json) (b : block) :
  block_y mh ext b =
  Some (py_add (stacked_y mh ext b) (y_offset_of (stacked_end mh ext))).
Proof. unfold block_y. by rewrite calc_locations_lookup. Qed.

Lemma calc_locations_total (mh : MaterialHelper) (ext : gmap string json)
    (b : block) :
  calc_locations mh ext !! block_key b =
  Some (calc_locations mh ext !!! block_key b).
Proof.
  by rewrite (lookup_total_correct _ _ _ (calc_locations_lookup mh ext b)),
    calc_locations_lookup.
Qed.

(** [calc_locations] reads the material and the two flags of the helper,
    not its tree. *)
Lemma calc_locations_reads (mh mh' : MaterialHelper) (ext : gmap string json) :
  pymat mh' = pymat mh → vertex_color mh' = vertex_color mh →
  needs_emissive mh' = needs_emissive mh →
  calc_locations mh' ext = calc_locations mh ext.
Proof.
  intros Hp Hv He. unfold calc_locations, stack_blocks.
  by rewrite Hp, Hv, He.
Qed.

(** As laid out, every y is an int. *)
Lemma descend_int (z : Z) (cs : list bool) :
  ∃ z', descend (PyInt z) cs = PyInt z'.
Proof.
  revert z. induction cs as [|c cs IH]; intros z; [by exists z|].
  destruct c; apply IH.
Qed.

Lemma shifted_by_zero (locs : gmap string location) :
  map_Forall (λ _ l, ∃ z, l.2 = PyInt z) locs →
  shifted_by (PyInt 0) locs = locs.
Proof.
  intros Hint. unfold shifted_by. apply map_eq. intros k.
  rewrite lookup_fmap. destruct (_ !! k) as [[x y]|] eqn:Hk; [|reflexivity].
  destruct (Hint _ _ Hk) as [z Hz]. cbn in Hz. subst y. cbn.
  by rewrite Z.add_0_r.
Qed.

Lemma stack_blocks_int (mh : MaterialHelper) (ext : gmap string json) :
  map_Forall (λ _ l, ∃ z, l.2 = PyInt z) (stack_blocks mh ext).1.
Proof.
  intros k l Hk.
  assert (Hb : ∃ b, l = (PyInt (-200), stacked_y mh ext b)).
  { unfold stack_blocks in Hk. cbn [fst] in Hk.
    apply lookup_insert_Some in Hk as [[_ <-]|[_ Hk]]; [by exists Emission|].
    apply lookup_insert_Some in Hk as [[_ <-]|[_ Hk]]; [by exists Specular|].
    apply lookup_insert_Some in Hk as [[_ <-]|[_ Hk]]; [by exists Normal|].
    apply lookup_insert_Some in Hk as [[_ <-]|[_ Hk]]; [by exists Glossiness|].
    apply lookup_insert_Some in Hk as [[_ <-]|[_ Hk]]; [by exists Diffuse|].
    apply lookup_insert_Some in Hk as [[_ <-]|[_ Hk]]; [by exists Occlusion|].
    by rewrite lookup_empty in Hk. }
  destruct Hb as [b ->]. apply descend_int.
Qed.

(** Case analysis on the six conditions [calc_locations] tests. *)
Ltac layout_cases mh ext :=
  cbv [stacked_y stacked_end active blocks_before block_order
       fmap list_fmap] in *;
  destruct (is_not_None (occlusion_texture (pymat mh)));
  destruct (dict_has ext "diffuseTexture");
  destruct (vertex_color mh);
  destruct (dict_has ext "specularGlossinessTexture");
  destruct (is_not_None (normal_texture (pymat mh)));
  destruct (needs_emissive mh).

(** C6, as the code has it.  The total stacked height is 460 times the
    number of active blocks.  When it is positive, every block's y is moved
    by half the total height minus 20, which puts the top of the stack at
    [H/2 - 20] and its bottom at [-H/2 - 20]; when no block is active the
    height is 0 and the locations are left as they were laid out. *)
Theorem calc_locations_centering (mh : MaterialHelper)
    (ext : gmap string json) :
  let locs := (stack_blocks mh ext).1 in
  let total_height := py_neg (stack_blocks mh ext).2 in
  let n := length (filter (λ b, active mh ext b = true) block_order) in
  total_height = PyInt (460 * Z.of_nat n) ∧
  calc_locations mh ext =
    shifted_by (if py_gt total_height (PyInt 0)
                then claimed_shift total_height else PyInt 0) locs ∧
  if py_gt total_height (PyInt 0)
  then block_y mh ext Occlusion =
         Some (PyFloat (to_float total_height / 2 - 20)) ∧
       (to_float total_height / 2 - 20 - to_float total_height)%float =
         (- (to_float total_height / 2) - 20)%float
  else n = 0%nat ∧ calc_locations mh ext = locs.
Proof.
  intros locs total_height n.
  assert (Hshift : calc_locations mh ext =
    shifted_by (if py_gt total_height (PyInt 0)
                then claimed_shift total_height else PyInt 0) locs).
  { apply calc_locations_shift. }
  split; [|split; [done|]].
  - subst total_height n. rewrite stack_blocks_end.
    layout_cases mh ext; vm_compute; reflexivity.
  - rewrite Hshift, block_y_eq. clear Hshift.
    pose proof (shifted_by_zero locs (stack_blocks_int mh ext)) as Hzero.
    subst total_height n. rewrite stack_blocks_end.
    revert Hzero. generalize locs. clear locs. intros locs Hzero.
    layout_cases mh ext;
      first [ split; [by vm_compute | exact Hzero]
            | split; vm_compute; reflexivity ].
Qed.

(** C7. Two distinct active blocks are at least one block height (460)
    apart in y, and an inactive block has the location of the block that
    follows it in the stack. *)
Theorem active_blocks_apart (mh : MaterialHelper) (ext : gmap string json) :
  (∀ a b : block, a ≠ b →
     active mh ext a = true → active mh ext b = true →
     ∃ ya yb : pynum,
       block_y mh ext a = Some ya ∧ block_y mh ext b = Some yb ∧
       (460 <=? abs (to_float ya - to_float yb))%float = true) ∧
  (∀ (i : nat) (a b : block),
     block_order !! i = Some a → block_order !! S i = Some b →
     active mh ext a = false →
     calc_locations mh ext !! block_key a =
     calc_locations mh ext !! block_key b).
Proof.
  split.
  - intros a b Hab Ha Hb. rewrite !block_y_eq.
    eexists _, _. split; [reflexivity|]. split; [reflexivity|].
    destruct a, b; try done;
      layout_cases mh ext; try discriminate; vm_compute; reflexivity.
  - intros i a b Hi Hsi Ha. rewrite !calc_locations_lookup.
    do 6 (destruct i as [|i]; [cbn in Hi, Hsi; simplify_eq;
       layout_cases mh ext; try discriminate; vm_compute; reflexivity|]).
    cbn in Hi. discriminate.
Qed.

(** C9. A ['specularGlossinessTexture'] key bound to a falsy value is no
    texture for [glossiness], which assigns the roughness default value and
    makes no node, while [calc_locations], which tests the presence of the
    key, counts the glossiness and specular blocks as active and puts the
    block after each of them 460 lower. *)
Theorem falsy_texture_value (ext : gmap string json) (v : json)
    (loc : location) (roughness_socket : socket) (mh : MaterialHelper)
    (d : float) :
  ext !! "specularGlossinessTexture" = Some v →
  truthy v = false →
  float_minus 1 (dict_get ext "glossinessFactor" (JNum (PyFloat 1))) = Ok d →
  glossiness ext loc roughness_socket mh =
    Done tt (with_defaults mh
      (<[roughness_socket := JNum (PyFloat (py_max 0 (py_min 1 d)))]>
         (defaults mh))) ∧
  active mh ext Glossiness = true ∧ active mh ext Specular = true ∧
  ∃ yg yn ys ye : pynum,
    block_y mh ext Glossiness = Some yg ∧ block_y mh ext Normal = Some yn ∧
    block_y mh ext Specular = Some ys ∧ block_y mh ext Emission = Some ye ∧
    (to_float yg - to_float yn)%float = 460%float ∧
    (to_float ys - to_float ye)%float = 460%float.
Proof.
  intros Hkey Hfalsy Hminus.
  assert (Hhas : dict_has ext "specularGlossinessTexture" = true).
  { unfold dict_has. rewrite Hkey. by apply bool_decide_eq_true. }
  split; [|split; [done|split; [done|]]].
  - rewrite glossiness_unbound_run, Hminus; [done|].
    unfold dict_get. by rewrite Hkey.
  - rewrite !block_y_eq. eexists _, _, _, _.
    do 4 (split; [reflexivity|]). clear Hminus Hkey.
    layout_cases mh ext; try discriminate; split; vm_compute; reflexivity.
Qed.

(** ** pbr_specular_glossiness *)

Ltac locs_lookup mh ext b :=
  let H := fresh in
  pose proof (calc_locations_total mh ext b) as H;
  cbn [block_key] in H; rewrite H; clear H.

(** The run of [pbr_specular_glossiness]: everything up to the call of
    [glossiness] returns, and leaves the helper as [pbr_specular] says. *)
Lemma pbr_run (mh : MaterialHelper) :
  let ext := get_ext mh "KHR_materials_pbrSpecularGlossiness" ∅ in
  pbr_specular_glossiness mh =
  glossiness ext (calc_locations mh ext !!! "glossiness")
    (inputs (length (nodes mh)) (Name "Roughness")) (pbr_specular mh).
Proof.
  intros ext. unfold pbr_specular_glossiness. fold ext. run.
  rewrite !(calc_locations_reads mh) by reflexivity. fold ext.
  locs_lookup mh ext Diffuse. locs_lookup mh ext Emission.
  locs_lookup mh ext Normal. locs_lookup mh ext Occlusion.
  locs_lookup mh ext Specular. locs_lookup mh ext Glossiness.
  run.
  change (normal _ _ _) with (pbr_blocks mh).
  unfold pbr_specular, pbr_ior, occlusion_block. fold ext.
  destruct (is_not_None (occlusion_texture (pymat (pbr_blocks mh))));
    [destruct (settings_node (pbr_blocks mh)) eqn:Hs|];
    run; rewrite ?Hs; run; reflexivity.
Qed.

(** *** Growth of the tree *)

Lemma grows_refl (mh : MaterialHelper) : grows mh mh.
Proof.
  split; [|done]. exists []. split; [by rewrite app_nil_r|constructor].
Qed.

Lemma grows_trans (mh1 mh2 mh3 : MaterialHelper) :
  grows mh1 mh2 → grows mh2 mh3 → grows mh1 mh3.
Proof.
  intros [(a1 & Hn1 & Ha1) [Hs1 Hp1]] [(a2 & Hn2 & Ha2) [Hs2 Hp2]].
  split; [|split; congruence].
  exists (a1 ++ a2). split.
  - by rewrite Hn2, Hn1, (assoc_L (++)).
  - by apply Forall_app.
Qed.

Lemma no_settings_filter (ns : list Node) :
  Forall (λ nd, is_settings nd = false) ns →
  filter (λ nd, is_settings nd = true) ns = [].
Proof.
  induction 1 as [|nd ns Hnd _ IH]; [done|].
  rewrite filter_cons, decide_False; [done|]. by rewrite Hnd.
Qed.

Lemma grows_count (mh mh' : MaterialHelper) :
  grows mh mh' → count_settings mh' = count_settings mh.
Proof.
  intros [(added & Hn & Ha) _]. unfold count_settings.
  by rewrite Hn, filter_app, length_app, (no_settings_filter _ Ha),
    Nat.add_0_r.
Qed.

Lemma grows_lookup (mh mh' : MaterialHelper) (i : nat) (nd : Node) :
  grows mh mh' → nodes mh !! i = Some nd → nodes mh' !! i = Some nd.
Proof.
  intros [(added & Hn & _) _] Hi. rewrite Hn. by apply lookup_app_l_Some.
Qed.

Lemma grows_length (mh mh' : MaterialHelper) :
  grows mh mh' → (length (nodes mh) ≤ length (nodes mh'))%nat.
Proof. intros [(added & Hn & _) _]. rewrite Hn, length_app. lia. Qed.

(** Assigning default values, and adding nodes that are no settings nodes,
    lets the tree grow. *)
Lemma grows_with_defaults (mh : MaterialHelper) (ds : gmap socket json) :
  grows mh (with_defaults mh ds).
Proof.
  split; [|done]. exists []. split; [by rewrite app_nil_r|constructor].
Qed.

Lemma grows_added (mh : MaterialHelper) (ns : list Node) ls ds :
  Forall (λ nd, is_settings nd = false) ns →
  grows mh (mkMH (nodes mh ++ ns) ls ds (settings_node mh) (pymat mh)
              (vertex_color mh) (needs_emissive mh)).
Proof. intros Hns. split; [|done]. by exists ns. Qed.

(** What is assumed of the sub-builders: they let the tree grow. *)
Hypothesis texture_frame : ∀ ti l lab cs als d, Frame (texture ti l lab cs als d).
Hypothesis base_color_frame : ∀ d l c a, Frame (base_color d l c a).
Hypothesis emission_frame : ∀ l c st, Frame (emission l c st).
Hypothesis normal_frame : ∀ l n, Frame (normal l n).
Hypothesis occlusion_frame : ∀ l o, Frame (occlusion l o).
Hypothesis specular_frame :
  ∀ l lab sock fac ti, Frame (color_factor_and_texture l lab sock fac ti).

Lemma glossiness_grows (ext : gmap string json) (loc : location)
    (roughness_socket : socket) (mh : MaterialHelper) :
  grows mh (final (glossiness ext loc roughness_socket mh)).
Proof.
  destruct (truthy (dict_get ext "specularGlossinessTexture" JNull)) eqn:Htex.
  - destruct (from_dict (dict_get ext "specularGlossinessTexture" JNull))
      as [ti|e] eqn:Hti.
    + destruct loc as [x y].
      rewrite (glossiness_bound_run _ _ _ _ _ _ Htex Hti).
      destruct (ne_one _); [destruct (host_float _)|]; cbn [final];
        try (eapply grows_trans; [|apply texture_frame]);
        apply grows_added; by repeat constructor.
    + unfold glossiness. rewrite Htex, Hti. run. apply grows_refl.
  - rewrite (glossiness_unbound_run _ _ _ _ Htex).
    destruct (float_minus _ _); cbn [final];
      [apply grows_with_defaults|apply grows_refl].
Qed.

Lemma pbr_blocks_grows_skeleton (mh : MaterialHelper) :
  grows (pbr_skeleton mh) (pbr_blocks mh).
Proof.
  unfold pbr_blocks.
  eapply grows_trans; [|apply normal_frame].
  eapply grows_trans; [|apply emission_frame].
  apply base_color_frame.
Qed.

Lemma pbr_blocks_grows (mh : MaterialHelper) : grows mh (pbr_blocks mh).
Proof.
  eapply grows_trans; [|apply pbr_blocks_grows_skeleton].
  apply grows_added. by repeat constructor.
Qed.

Lemma occlusion_block_keeps (l : location) (mh : MaterialHelper)
    (i : nat) (nd : Node) :
  nodes mh !! i = Some nd → nodes (occlusion_block l mh) !! i = Some nd.
Proof.
  intros Hi. unfold occlusion_block.
  destruct (is_not_None _); [|done].
  destruct (settings_node mh);
    (eapply grows_lookup; [apply occlusion_frame|]); [done|].
  cbn [nodes]. by apply lookup_app_l_Some.
Qed.

Lemma pbr_final_grows (mh : MaterialHelper) :
  let ext := get_ext mh "KHR_materials_pbrSpecularGlossiness" ∅ in
  grows (occlusion_block (calc_locations mh ext !!! "occlusion")
           (pbr_blocks mh))
        (final (pbr_specular_glossiness mh)).
Proof.
  intros ext. rewrite pbr_run. fold ext.
  eapply grows_trans; [|apply glossiness_grows].
  unfold pbr_specular. eapply grows_trans; [|apply specular_frame].
  unfold pbr_ior. apply grows_with_defaults.
Qed.

(** What a run does to the settings node. *)
Lemma pbr_settings_effect (mh : MaterialHelper) :
  let mh' := final (pbr_specular_glossiness mh) in
  pymat mh' = pymat mh ∧
  (∃ added, nodes mh' = nodes mh ++ added) ∧
  if is_not_None (occlusion_texture (pymat mh)) &&
     negb (is_not_None (settings_node mh))
  then
    count_settings mh' = S (count_settings mh) ∧
    ∃ n, settings_node mh' = Some n ∧ nodes mh !! n = None ∧
         nodes mh' !! n =
           Some (mkNode "ShaderNodeGroup" None None
                   (Some (PyInt 10, PyInt 425)) (Some (PyInt 240)) None)
  else
    count_settings mh' = count_settings mh ∧
    settings_node mh' = settings_node mh ∧
    ∀ i nd, nodes mh !! i = Some nd → nodes mh' !! i = Some nd.
Proof.
  intros mh'.
  pose proof (pbr_blocks_grows mh) as GB.
  pose proof (pbr_final_grows mh) as GF. cbv zeta in GF. fold mh' in GF.
  set (l := calc_locations mh _ !!! "occlusion") in GF.
  pose proof GB as [HBn [HBs HBp]].
  unfold occlusion_block in GF. rewrite HBp, HBs in GF.
  destruct (is_not_None (occlusion_texture (pymat mh))) eqn:Hocc;
    [destruct (settings_node mh) as [n|] eqn:Hset|]; cbn [andb negb is_not_None].
  - (* a settings node is there: it is used *)
    assert (G : grows mh mh').
    { eapply grows_trans; [|exact GF].
      eapply grows_trans; [|apply occlusion_frame]. exact GB. }
    split; [apply G|]. split; [destruct G as [(a & Ha & _) _]; eauto|].
    split; [by apply grows_count|]. split; [rewrite <- Hset; apply G|].
    intros i nd. by apply grows_lookup.
  - (* none is there: one is made *)
    set (B' := mkMH _ _ _ _ _ _ _) in GF.
    assert (G' : grows B' mh').
    { eapply grows_trans; [|exact GF]. apply occlusion_frame. }
    destruct HBn as (added & HBn & HBa).
    split; [destruct G' as [_ [_ ->]]; reflexivity|]. split.
    { destruct G' as [(a & Ha & _) _]. rewrite Ha. unfold B'. cbn [nodes].
      rewrite HBn, <- !(assoc_L (++)). eauto. }
    split.
    { rewrite (grows_count _ _ G'). unfold count_settings, B'. cbn [nodes].
      rewrite !filter_app, !length_app. rewrite HBn, filter_app, length_app.
      rewrite (no_settings_filter _ HBa).
      set (k := length (filter _ [_])). vm_compute in k. subst k.
      cbn [length]. lia. }
    exists (length (nodes (pbr_blocks mh))). split; [|split].
    + destruct G' as [_ [-> _]]. reflexivity.
    + apply lookup_ge_None. rewrite HBn, length_app. lia.
    + apply (grows_lookup _ _ _ _ G'). unfold B'. cbn [nodes].
      by rewrite list_lookup_middle.
  - (* no occlusion texture: nothing is done *)
    assert (G : grows mh mh').
    { eapply grows_trans; [|exact GF]. exact GB. }
    split; [apply G|]. split; [destruct G as [(a & Ha & _) _]; eauto|].
    split; [by apply grows_count|]. split; [apply G|].
    intros i nd. by apply grows_lookup.
Qed.

(** C4. A run of [pbr_specular_glossiness] makes at most one settings
    node.  A settings node the helper carries is kept and none is made; with
    none on the helper, one is made exactly when the material has an
    occlusion texture, and the helper then carries it; a second run on the
    same helper makes none. *)
Theorem settings_node_made_once (mh : MaterialHelper) :
  let mh' := final (pbr_specular_glossiness mh) in
  match settings_node mh with
  | Some n =>
      settings_node mh' = Some n ∧ count_settings mh' = count_settings mh
  | None =>
      if is_not_None (occlusion_texture (pymat mh))
      then count_settings mh' = S (count_settings mh) ∧
           ∃ n, settings_node mh' = Some n ∧ nodes mh !! n = None ∧
                is_settings <$> nodes mh' !! n = Some true
      else count_settings mh' = count_settings mh ∧ settings_node mh' = None
  end ∧
  count_settings (final (pbr_specular_glossiness mh')) = count_settings mh'.
Proof.
  intros mh'.
  pose proof (pbr_settings_effect mh) as (Hp & _ & H1). fold mh' in Hp, H1.
  pose proof (pbr_settings_effect mh') as (_ & _ & H2). rewrite Hp in H2.
  set (mh2 := final (pbr_specular_glossiness mh')) in *.
  clearbody mh2 mh'.
  destruct (settings_node mh) as [n|] eqn:Hset;
    destruct (is_not_None (occlusion_texture (pymat mh))) eqn:Hocc;
    cbn [andb negb is_not_None] in H1.
  - destruct H1 as (Hc & Hs & _). rewrite Hs in H2.
    cbn [andb negb is_not_None] in H2.
    split; [exact (conj Hs Hc)|]. exact (proj1 H2).
  - destruct H1 as (Hc & Hs & _). cbn [andb] in H2.
    split; [exact (conj Hs Hc)|]. exact (proj1 H2).
  - destruct H1 as (Hc & n & Hs & Hold & Hnew). rewrite Hs in H2.
    cbn [andb negb is_not_None] in H2.
    split; [|exact (proj1 H2)]. split; [exact Hc|].
    exists n. rewrite Hnew. repeat split; assumption.
  - destruct H1 as (Hc & Hs & _). cbn [andb] in H2.
    split; [exact (conj Hc Hs)|]. exact (proj1 H2).
Qed.

(** C10. A settings node the helper carries when the run starts is left as
    it is, its location and width included, and stays the helper's settings
    node; location (10, 425) and width 240 are given to the node the run
    makes when the helper carries none and the material has an occlusion
    texture, a node that was not in the tree before. *)
Theorem present_settings_node_untouched (mh : MaterialHelper) :
  let mh' := final (pbr_specular_glossiness mh) in
  (∀ (n : nat) (nd : Node),
     settings_node mh = Some n → nodes mh !! n = Some nd →
     settings_node mh' = Some n ∧ nodes mh' !! n = Some nd ∧
     node_location <$> nodes mh' !! n = Some (node_location nd) ∧
     width <$> nodes mh' !! n = Some (width nd)) ∧
  (settings_node mh = None →
   is_not_None (occlusion_texture (pymat mh)) = true →
   ∃ (n : nat) (nd : Node),
     settings_node mh' = Some n ∧ nodes mh !! n = None ∧
     nodes mh' !! n = Some nd ∧
     node_location nd = Some (PyInt 10, PyInt 425) ∧
     width nd = Some (PyInt 240)).
Proof.
  intros mh'.
  pose proof (pbr_settings_effect mh) as (_ & _ & H). fold mh' in H.
  clearbody mh'. split.
  - intros n nd Hset Hn. rewrite Hset, andb_false_r in H.
    destruct H as (_ & Hs & Hkeep).
    rewrite (Hkeep _ _ Hn). rewrite Hs. repeat split; reflexivity.
  - intros Hset Hocc. rewrite Hset, Hocc in H.
    cbn [andb negb is_not_None] in H.
    destruct H as (_ & n & Hs & Hold & Hnew).
    exists n. eexists. split; [exact Hs|]. split; [exact Hold|].
    split; [exact Hnew|]. split; reflexivity.
Qed.

(** *** Default values that stay *)

(** What is assumed of the two sub-builders called after the IOR is set:
    on the sockets of the nodes that are in the tree when they are called,
    the specular builder assigns no default value but to the socket it is
    given, and the texture constructor none but to those it is given. *)
Hypothesis specular_keeps_default : ∀ l lab sock fac ti s,
  s ≠ sock → keeps_default s (color_factor_and_texture l lab sock fac ti).
Hypothesis texture_keeps_default : ∀ ti l lab cs als d s,
  cs ≠ Some s → als ≠ Some s → keeps_default s (texture ti l lab cs als d).

Lemma glossiness_keeps_named (ext : gmap string json) (loc : location)
    (roughness_socket : socket) (mh : MaterialHelper)
    (node : nat) (name : string) (v : json) :
  inputs node (Name name) ≠ roughness_socket →
  (node < length (nodes mh))%nat →
  defaults mh !! inputs node (Name name) = Some v →
  defaults (final (glossiness ext loc roughness_socket mh))
    !! inputs node (Name name) = Some v.
Proof.
  intros Hne Hlt Hv.
  destruct (truthy (dict_get ext "specularGlossinessTexture" JNull)) eqn:Htex.
  - destruct (from_dict (dict_get ext "specularGlossinessTexture" JNull))
      as [ti|e] eqn:Hti.
    + destruct loc as [x y].
      rewrite (glossiness_bound_run _ _ _ _ _ _ Htex Hti).
      destruct (ne_one _); [destruct (host_float _)|]; cbn [final];
        try (apply texture_keeps_default;
             [done|by intros [=]|cbn [nodes sock_node inputs];
                                 rewrite length_app; lia|]);
        cbn [defaults]; by rewrite !lookup_insert_ne by (by intros [=]).
    + unfold glossiness. rewrite Htex, Hti. by run.
  - rewrite (glossiness_unbound_run _ _ _ _ Htex).
    destruct (float_minus _ _); cbn [final with_defaults defaults]; [|done].
    by rewrite lookup_insert_ne.
Qed.

(** The shader node stays where [nodes.new] put it. *)
Lemma pbr_node_stays (mh : MaterialHelper) :
  let bsdf := mkNode "ShaderNodeBsdfPrincipled" None None
                (Some (PyInt 10, PyInt 300)) None None in
  nodes (pbr_ior mh) !! length (nodes mh) = Some bsdf ∧
  nodes (pbr_specular mh) !! length (nodes mh) = Some bsdf ∧
  nodes (final (pbr_specular_glossiness mh)) !! length (nodes mh) = Some bsdf.
Proof.
  intros bsdf.
  assert (H1 : nodes (pbr_ior mh) !! length (nodes mh) = Some bsdf).
  { unfold pbr_ior. cbn [with_defaults nodes].
    apply occlusion_block_keeps.
    eapply grows_lookup; [apply pbr_blocks_grows_skeleton|].
    unfold pbr_skeleton. cbn [nodes]. by rewrite list_lookup_middle. }
  assert (H2 : nodes (pbr_specular mh) !! length (nodes mh) = Some bsdf).
  { unfold pbr_specular. eapply grows_lookup; [apply specular_frame|done]. }
  split; [done|]. split; [done|].
  rewrite pbr_run. eapply grows_lookup; [apply glossiness_grows|done].
Qed.

(** C5. Whatever the extension holds, the run leaves the default value of
    the 'IOR' input of the shader node it made at the int 1000; that node
    is the one [nodes.new('ShaderNodeBsdfPrincipled')] returned, and it is
    in the tree the run leaves. *)
Theorem ior_is_1000 (mh : MaterialHelper) :
  let pbr_node := length (nodes mh) in
  let mh' := final (pbr_specular_glossiness mh) in
  defaults mh' !! inputs pbr_node (Name "IOR") = Some (JNum (PyInt 1000)) ∧
  bl_idname <$> nodes mh' !! pbr_node = Some "ShaderNodeBsdfPrincipled".
Proof.
  intros pbr_node mh'.
  destruct (pbr_node_stays mh) as (H1 & H2 & H3). fold pbr_node in H1, H2, H3.
  split.
  - unfold mh'. rewrite pbr_run. apply glossiness_keeps_named.
    + by intros [=].
    + by apply lookup_lt_Some in H2.
    + unfold pbr_specular. apply specular_keeps_default.
      * by intros [=].
      * by apply lookup_lt_Some in H1.
      * unfold pbr_ior. cbn [with_defaults defaults].
        by rewrite lookup_insert_eq.
  - fold mh' in H3. by rewrite H3.
Qed.

(** C8. A missing key raises no error and is its default, each key by
    itself and whatever the other keys hold: without 'glossinessFactor',
    [glossiness] runs as with the factor 1.0; without
    'specularGlossinessTexture', as with the texture [None]; without both
    it returns, with roughness 0.0, and calls no sub-builder.  In
    [pbr_specular_glossiness], without 'specularFactor' the specular
    builder is given the factor [1, 1, 1], and without
    'specularGlossinessTexture' it is given the texture [None]. *)
Theorem missing_keys_use_defaults (mh : MaterialHelper)
    (ext : gmap string json) (loc : location) (roughness_socket : socket)
    (m : MaterialHelper) :
  (ext !! "glossinessFactor" = None →
   glossiness ext loc roughness_socket m =
   glossiness (<["glossinessFactor" := JNum (PyFloat 1)]> ext)
     loc roughness_socket m) ∧
  (ext !! "specularGlossinessTexture" = None →
   glossiness ext loc roughness_socket m =
   glossiness (<["specularGlossinessTexture" := JNull]> ext)
     loc roughness_socket m) ∧
  (ext !! "glossinessFactor" = None →
   ext !! "specularGlossinessTexture" = None →
   glossiness ext loc roughness_socket m =
   Done tt (with_defaults m
              (<[roughness_socket := JNum (PyFloat 0)]> (defaults m)))) ∧
  (let ext' := get_ext mh "KHR_materials_pbrSpecularGlossiness" ∅ in
   let locs := calc_locations mh ext' in
   let pbr_node := length (nodes mh) in
   let specular factor tex_info :=
     color_factor_and_texture (locs !!! "specular") "Specular Color"
       (inputs pbr_node (Name "Specular Tint")) factor tex_info
       (pbr_ior mh) in
   let last built :=
     glossiness ext' (locs !!! "glossiness")
       (inputs pbr_node (Name "Roughness")) built in
   (ext' !! "specularFactor" = None →
    pbr_specular_glossiness mh =
    last (specular (JArr [JNum (PyInt 1); JNum (PyInt 1); JNum (PyInt 1)])
            (dict_get ext' "specularGlossinessTexture" JNull))) ∧
   (ext' !! "specularGlossinessTexture" = None →
    pbr_specular_glossiness mh =
    last (specular
            (dict_get ext' "specularFactor"
               (JArr [JNum (PyInt 1); JNum (PyInt 1); JNum (PyInt 1)]))
            JNull))).
Proof.
  assert (Hboth : ∀ (e : gmap string json) l s m0,
    e !! "glossinessFactor" = None →
    e !! "specularGlossinessTexture" = None →
    glossiness e l s m0 =
    Done tt (with_defaults m0 (<[s := JNum (PyFloat 0)]> (defaults m0)))).
  { intros e l s m0 Hf Ht.
    rewrite glossiness_unbound_run; unfold dict_get; rewrite ?Ht, ?Hf; done. }
  split; [|split; [|split]].
  - intros Hf. unfold glossiness, dict_get.
    rewrite lookup_insert_eq, lookup_insert_ne by done. by rewrite Hf.
  - intros Ht. unfold glossiness, dict_get.
    rewrite lookup_insert_eq, lookup_insert_ne by done. by rewrite Ht.
  - apply Hboth.
  - intros ext' locs pbr_node specular last. split.
    + intros Hs. rewrite pbr_run. fold ext'. unfold last, specular.
      unfold pbr_specular. fold ext'. unfold dict_get at 1. by rewrite Hs.
    + intros Ht. rewrite pbr_run. fold ext'. unfold last, specular.
      unfold pbr_specular. fold ext'. unfold dict_get at 2. by rewrite Ht.
Qed.

(** ** Further properties of the three functions *)

(** *** Errors of [glossiness] *)

Lemma glossiness_bad_texture_run (ext : gmap string json) (loc : location)
    (roughness_socket : socket) (mh : MaterialHelper) (e : exn) :
  truthy (dict_get ext "specularGlossinessTexture" JNull) = true →
  from_dict (dict_get ext "specularGlossinessTexture" JNull) = Err e →
  glossiness ext loc roughness_socket mh = Raised e mh.
Proof. intros Htex Hti. unfold glossiness. rewrite Htex, Hti. by run. Qed.

(** X1. Without a texture, what [1.0 - factor] does decides the outcome: a
    float or a bool factor never raises, an int raises [OverflowError]
    exactly when it is beyond the binary64 range, and a factor of any other
    type raises [TypeError]; a raise leaves the helper as it was. *)
Theorem glossiness_factor_errors (ext : gmap string json) (loc : location)
    (roughness_socket : socket) (mh : MaterialHelper) :
  truthy (dict_get ext "specularGlossinessTexture" JNull) = false →
  match dict_get ext "glossinessFactor" (JNum (PyFloat 1)) with
  | JNum (PyFloat _) | JBool _ =>
      raises (glossiness ext loc roughness_socket mh) = false
  | JNum (PyInt z) =>
      if is_infinity (float_of_Z z)
      then glossiness ext loc roughness_socket mh = Raised OverflowError mh
      else raises (glossiness ext loc roughness_socket mh) = false
  | _ => glossiness ext loc roughness_socket mh = Raised TypeError mh
  end.
Proof.
  intros Htex. rewrite (glossiness_unbound_run _ _ _ _ Htex).
  unfold float_minus.
  destruct (dict_get ext "glossinessFactor" _) as [|b|[z|f]| | |];
    cbn [as_number checked_float]; try reflexivity.
  - destruct b; reflexivity.
  - destruct (is_infinity (float_of_Z z)); reflexivity.
Qed.

(** X2. A texture dict that [TextureInfo.from_dict] rejects makes
    [glossiness] raise what [from_dict] raised, before anything is built:
    the helper is as it was, whatever the factor is. *)
Theorem glossiness_bad_texture (ext : gmap string json) (loc : location)
    (roughness_socket : socket) (mh : MaterialHelper) (e : exn) :
  truthy (dict_get ext "specularGlossinessTexture" JNull) = true →
  from_dict (dict_get ext "specularGlossinessTexture" JNull) = Err e →
  glossiness ext loc roughness_socket mh = Raised e mh ∧
  final (glossiness ext loc roughness_socket mh) = mh.
Proof.
  intros Htex Hti.
  by rewrite (glossiness_bad_texture_run _ _ _ _ _ Htex Hti).
Qed.

(** X3. With a texture bound that [from_dict] takes and a factor that is
    no number (None, a string, a list, a dict), [glossiness] raises
    [TypeError] at line 69, where the host does not take the factor as the
    default value of a float socket.  What was built stays: the SUBTRACT
    node, complete and linked to the roughness socket, and the MULTIPLY
    node with its label, operation and location, but without the clamp
    flag and without a link; the texture constructor is not called. *)
Theorem glossiness_factor_rejected (ext : gmap string json) (x y : pynum)
    (roughness_socket : socket) (mh : MaterialHelper) (ti : TextureInfo)
    (e : exn) :
  truthy (dict_get ext "specularGlossinessTexture" JNull) = true →
  from_dict (dict_get ext "specularGlossinessTexture" JNull) = Ok ti →
  as_number (dict_get ext "glossinessFactor" (JNum (PyFloat 1))) = Err e →
  let sub := length (nodes mh) in
  let subtract_node :=
    mkNode "ShaderNodeMath" (Some "1 - Glossiness") (Some "SUBTRACT")
      (Some (py_sub x (PyInt 140), py_sub y (PyInt 50))) None (Some true) in
  let multiply_node :=
    mkNode "ShaderNodeMath" (Some "Glossiness Factor") (Some "MULTIPLY")
      (Some (py_sub x (PyInt 340), y)) None None in
  glossiness ext (x, y) roughness_socket mh =
    Raised TypeError
      (mkMH (nodes mh ++ [subtract_node; multiply_node])
         (links mh ++ [(outputs sub (Idx 0), roughness_socket)])
         (<[inputs sub (Idx 0) := JNum (PyFloat 1)]> (defaults mh))
         (settings_node mh) (pymat mh) (vertex_color mh)
         (needs_emissive mh)).
Proof.
  intros Htex Hti Hnum sub subtract_node multiply_node.
  rewrite (glossiness_bound_run _ _ _ _ _ _ Htex Hti).
  revert Hnum. unfold host_float.
  destruct (dict_get ext "glossinessFactor" _) as [|b|n| | |];
    intros Hnum; try discriminate Hnum; reflexivity.
Qed.

(** *** The mapping [calc_locations] returns *)

(** X4. The mapping [calc_locations] returns has the six block keys and no
    other, and every location in it has x = -200. *)
Theorem calc_locations_domain (mh : MaterialHelper) (ext : gmap string json) :
  (∀ b : block, ∃ y : pynum,
     calc_locations mh ext !! block_key b = Some (PyInt (-200), y)) ∧
  (∀ (k : string) (l : location),
     calc_locations mh ext !! k = Some l →
     (∃ b : block, k = block_key b) ∧ l.1 = PyInt (-200)).
Proof.
  split.
  - intros b. rewrite calc_locations_lookup. eauto.
  - intros k l Hk. rewrite calc_locations_shift in Hk.
    unfold shifted_by in Hk. rewrite lookup_fmap in Hk.
    apply fmap_Some in Hk as (l0 & Hs & ->).
    unfold stack_blocks in Hs. cbn [fst] in Hs.
    apply lookup_insert_Some in Hs as [[<- <-]|[_ Hs]];
      [split; [by exists Emission|reflexivity]|].
    apply lookup_insert_Some in Hs as [[<- <-]|[_ Hs]];
      [split; [by exists Specular|reflexivity]|].
    apply lookup_insert_Some in Hs as [[<- <-]|[_ Hs]];
      [split; [by exists Normal|reflexivity]|].
    apply lookup_insert_Some in Hs as [[<- <-]|[_ Hs]];
      [split; [by exists Glossiness|reflexivity]|].
    apply lookup_insert_Some in Hs as [[<- <-]|[_ Hs]];
      [split; [by exists Diffuse|reflexivity]|].
    apply lookup_insert_Some in Hs as [[<- <-]|[_ Hs]];
      [split; [by exists Occlusion|reflexivity]|].
    by rewrite lookup_empty in Hs.
Qed.

(** X5. The layout depends on the presence of the two textures of the
    material, on the two flags of the helper and on the presence of the two
    keys in the extension dict, and on nothing else: not on the values the
    keys are bound to, not on the tree or the settings node. *)
Theorem calc_locations_reads_presence (mh1 mh2 : MaterialHelper)
    (ext1 ext2 : gmap string json) :
  is_not_None (occlusion_texture (pymat mh1)) =
    is_not_None (occlusion_texture (pymat mh2)) →
  is_not_None (normal_texture (pymat mh1)) =
    is_not_None (normal_texture (pymat mh2)) →
  vertex_color mh1 = vertex_color mh2 →
  needs_emissive mh1 = needs_emissive mh2 →
  dict_has ext1 "diffuseTexture" = dict_has ext2 "diffuseTexture" →
  dict_has ext1 "specularGlossinessTexture" =
    dict_has ext2 "specularGlossinessTexture" →
  calc_locations mh1 ext1 = calc_locations mh2 ext2.
Proof.
  intros H1 H2 H3 H4 H5 H6. unfold calc_locations, stack_blocks.
  by rewrite H1, H2, H3, H4, H5, H6.
Qed.

(** X6. The blocks go down the stack in the order of the source: a block
    that is stacked before another is at the same height or above it, by at
    most the total stacked height. *)
Theorem blocks_stack_downwards (mh : MaterialHelper) (ext : gmap string json)
    (a b : block) :
  a ∈ blocks_before b →
  ∃ ya yb : pynum,
    block_y mh ext a = Some ya ∧ block_y mh ext b = Some yb ∧
    (to_float yb <=? to_float ya)%float = true ∧
    (to_float ya - to_float yb <=?
     to_float (py_neg (stack_blocks mh ext).2))%float = true.
Proof.
  intros Hab. rewrite !block_y_eq, stack_blocks_end.
  eexists _, _. split; [reflexivity|]. split; [reflexivity|].
  destruct a, b; cbn [blocks_before] in Hab;
    try (exfalso; revert Hab; clear;
         rewrite ?elem_of_cons, elem_of_nil; by intuition discriminate);
    clear Hab; layout_cases mh ext; vm_compute; split; reflexivity.
Qed.

(** *** The roughness without a texture *)

(** X7. Without a texture, whatever number the factor is, a NaN or an
    infinity included, [glossiness] returns, makes no node and no link,
    and assigns the roughness socket a float in [0, 1]: 1.0 for a NaN or
    minus infinity, 0.0 for plus infinity. *)
Theorem roughness_in_unit_interval (ext : gmap string json) (loc : location)
    (roughness_socket : socket) (mh : MaterialHelper) (n : pynum) (f : float) :
  truthy (dict_get ext "specularGlossinessTexture" JNull) = false →
  as_number (dict_get ext "glossinessFactor" (JNum (PyFloat 1))) = Ok n →
  checked_float n = Ok f →
  let r := py_max 0 (py_min 1 (1 - f)) in
  glossiness ext loc roughness_socket mh =
    Done tt (with_defaults mh
               (<[roughness_socket := JNum (PyFloat r)]> (defaults mh))) ∧
  (0 <=? r)%float = true ∧ (r <=? 1)%float = true ∧
  (f = nan → r = 1%float) ∧
  (f = neg_infinity → r = 1%float) ∧
  (f = infinity → r = 0%float).
Proof.
  intros Htex Hnum Hflt r.
  split.
  { rewrite (glossiness_unbound_run _ _ _ _ Htex).
    unfold float_minus. by rewrite Hnum, Hflt. }
  destruct (max_min_in_unit (1 - f)) as [Hlo Hhi].
  split; [exact Hlo|]. split; [exact Hhi|].
  subst r. repeat split; intros ->; reflexivity.
Qed.

(** X8. Without a texture, a second call of [glossiness] changes nothing:
    it returns (or raises) as the first did and leaves the helper of the
    first. *)
Theorem glossiness_unbound_idempotent (ext : gmap string json)
    (loc : location) (roughness_socket : socket) (mh : MaterialHelper) :
  truthy (dict_get ext "specularGlossinessTexture" JNull) = false →
  glossiness ext loc roughness_socket
    (final (glossiness ext loc roughness_socket mh)) =
  glossiness ext loc roughness_socket mh.
Proof.
  intros Htex. rewrite !(glossiness_unbound_run _ _ _ _ Htex).
  destruct (float_minus _ _) as [d|e]; cbn [final]; [|done].
  unfold with_defaults. cbn [nodes links defaults settings_node pymat
    vertex_color needs_emissive]. by rewrite insert_insert_eq.
Qed.

(** *** The nodes of [glossiness] with a texture *)

(** X9. With a texture bound and a factor that is a number, the roughness
    socket (a socket of a node of the tree) is fed by a link and by nothing
    else: before the texture
    constructor is called, [glossiness] has added exactly one link into it,
    from output 0 of the SUBTRACT node, and has not assigned its default
    value; the alpha of the texture goes into an input of a node that was
    just made, never into the roughness socket itself. *)
Theorem glossiness_feeds_roughness_by_link (ext : gmap string json)
    (x y : pynum) (roughness_socket : socket) (mh : MaterialHelper)
    (ti : TextureInfo) (f : float) :
  truthy (dict_get ext "specularGlossinessTexture" JNull) = true →
  from_dict (dict_get ext "specularGlossinessTexture" JNull) = Ok ti →
  host_float (dict_get ext "glossinessFactor" (JNum (PyFloat 1))) = Ok f →
  (sock_node roughness_socket < length (nodes mh))%nat →
  ∃ (built : MaterialHelper) (tex_loc : location) (alpha : socket),
    glossiness ext (x, y) roughness_socket mh =
      Done tt (texture ti tex_loc "SPECULAR GLOSSINESS" None (Some alpha)
                 true built) ∧
    defaults built !! roughness_socket = defaults mh !! roughness_socket ∧
    filter (λ l, l.2 = roughness_socket) (links built) =
      filter (λ l, l.2 = roughness_socket) (links mh) ++
      [(outputs (length (nodes mh)) (Idx 0), roughness_socket)] ∧
    (length (nodes mh) ≤ sock_node alpha)%nat ∧
    sock_output alpha = false ∧
    alpha ≠ roughness_socket.
Proof.
  intros Htex Hti Hnum Hlt.
  assert (Hne : ∀ n k, (length (nodes mh) ≤ n)%nat →
                       inputs n k ≠ roughness_socket).
  { intros n k Hn <-. cbn [sock_node inputs] in Hlt. lia. }
  rewrite (glossiness_bound_run _ _ _ _ _ _ Htex Hti), Hnum.
  destruct (ne_one _); eexists _, _, _; (split; [reflexivity|]);
    cbn [defaults links];
    rewrite ?lookup_insert_ne by (apply Hne; lia);
    (split; [reflexivity|]); rewrite filter_app;
    (split; [f_equal|]).
  - rewrite filter_cons, decide_True by done.
    rewrite filter_cons, decide_False; [done|].
    cbn [snd]. apply Hne. lia.
  - split; [cbn [sock_node inputs]; lia|]. split; [done|]. apply Hne. lia.
  - rewrite filter_cons, decide_True by done. done.
  - split; [cbn [sock_node inputs]; lia|]. split; [done|]. apply Hne. lia.
Qed.

(** X10. [calc_locations] gives the glossiness block an int x, -200, and
    whatever y, an int or a float.  With a texture bound, a factor that is
    a number and such a location (x, y), the nodes are laid out in reading
    order: the texture is given the y of the block and an x left of every
    math node that was made, and every math node is left of the x of the
    block, at y or at y - 50. *)
Theorem glossiness_nodes_left_to_right (ext : gmap string json)
    (x : Z) (y : pynum) (roughness_socket : socket) (mh : MaterialHelper)
    (ti : TextureInfo) (f : float) :
  truthy (dict_get ext "specularGlossinessTexture" JNull) = true →
  from_dict (dict_get ext "specularGlossinessTexture" JNull) = Ok ti →
  host_float (dict_get ext "glossinessFactor" (JNum (PyFloat 1))) = Ok f →
  (∃ (built : MaterialHelper) (tx : Z) (alpha : socket),
     glossiness ext (PyInt x, y) roughness_socket mh =
       Done tt (texture ti (PyInt tx, y) "SPECULAR GLOSSINESS" None
                  (Some alpha) true built) ∧
     Forall (λ nd, ∃ (nx : Z) (ny : pynum),
               node_location nd = Some (PyInt nx, ny) ∧
               tx < nx ∧ nx < x ∧ (ny = y ∨ ny = py_sub y (PyInt 50)))
       (drop (length (nodes mh)) (nodes built))) ∧
  (∀ (mh0 : MaterialHelper) (ext0 : gmap string json), ∃ y0 : pynum,
     calc_locations mh0 ext0 !!! "glossiness" = (PyInt (-200), y0)).
Proof.
  intros Htex Hti Hnum. split.
  - rewrite (glossiness_bound_run _ _ _ _ _ _ Htex Hti), Hnum.
    cbn [py_sub].
    destruct (ne_one _); eexists _, _, _; (split; [reflexivity|]);
      cbn [nodes]; rewrite drop_app_length;
      repeat (constructor;
              [eexists _, _; split; [reflexivity|];
               split; [lia|]; split; [lia|]; auto|]);
      constructor.
  - intros mh0 ext0. eexists.
    apply lookup_total_correct.
    exact (calc_locations_lookup mh0 ext0 Glossiness).
Qed.

(** *** The run as a whole *)

Lemma occlusion_block_nodes (l : location) (mh : MaterialHelper) :
  ∃ added, nodes (occlusion_block l mh) = nodes mh ++ added.
Proof.
  unfold occlusion_block. destruct (is_not_None _).
  - destruct (settings_node mh).
    + match goal with |- context [occlusion ?l0 ?s ?m] =>
        destruct (occlusion_frame l0 s m) as [(a & Ha & _) _] end.
      by exists a.
    + match goal with |- context [occlusion ?l0 ?s ?m] =>
        destruct (occlusion_frame l0 s m) as [(a & Ha & _) _] end.
      rewrite Ha. cbn [nodes]. rewrite <- (assoc_L (++)). eauto.
  - exists []. by rewrite app_nil_r.
Qed.

(** X11. The run only adds to the tree: the nodes that were there are
    still there, in place and unchanged, followed by the shader node and
    the output node, at (10, 300) and (300, 300), and then by what the
    sub-builders made. *)
Theorem pbr_tree_grows (mh : MaterialHelper) :
  ∃ rest : list Node,
    nodes (final (pbr_specular_glossiness mh)) =
    nodes mh ++
    mkNode "ShaderNodeBsdfPrincipled" None None
      (Some (PyInt 10, PyInt 300)) None None ::
    mkNode "ShaderNodeOutputMaterial" None None
      (Some (PyInt 300, PyInt 300)) None None :: rest.
Proof.
  destruct (pbr_blocks_grows_skeleton mh) as [(a1 & H1 & _) _].
  pose proof (pbr_final_grows mh) as GF. cbv zeta in GF.
  destruct GF as [(a3 & H3 & _) _].
  match type of H3 with context [occlusion_block ?l ?m] =>
    destruct (occlusion_block_nodes l m) as [a2 H2] end.
  rewrite H3, H2, H1. unfold pbr_skeleton. cbn [nodes].
  rewrite <- !(assoc_L (++)). cbn [app]. eauto.
Qed.

(** ** The reference sub-builders behave *)

Lemma sibling_texture_frame ti l lab cs als d :
  Frame (Sibling.texture ti l lab cs als d).
Proof.
  intros mh. unfold Sibling.texture.
  destruct cs, als; run; apply grows_added; by repeat constructor.
Qed.

Lemma sibling_base_color_frame d l c a : Frame (Sibling.base_color d l c a).
Proof. apply sibling_texture_frame. Qed.

Lemma sibling_emission_frame l c st : Frame (Sibling.emission l c st).
Proof.
  intros mh. unfold Sibling.emission.
  destruct (needs_emissive mh); [|apply grows_refl].
  eapply grows_trans; [|apply sibling_texture_frame].
  apply grows_with_defaults.
Qed.

Lemma sibling_normal_frame l n : Frame (Sibling.normal l n).
Proof.
  intros mh. unfold Sibling.normal.
  destruct (is_not_None _); [|apply grows_refl]. run.
  eapply grows_trans; [|apply sibling_texture_frame].
  apply grows_added. by repeat constructor.
Qed.

Lemma sibling_occlusion_frame l o : Frame (Sibling.occlusion l o).
Proof. apply sibling_texture_frame. Qed.

Lemma sibling_specular_frame l lab sock fac ti :
  Frame (Sibling.color_factor_and_texture l lab sock fac ti).
Proof.
  intros mh. unfold Sibling.color_factor_and_texture.
  destruct (truthy ti); run; [|apply grows_with_defaults].
  eapply grows_trans; [|apply sibling_texture_frame].
  apply grows_added. by repeat constructor.
Qed.

Lemma sibling_texture_keeps_default ti l lab cs als d s :
  cs ≠ Some s → als ≠ Some s →
  keeps_default s (Sibling.texture ti l lab cs als d).
Proof.
  intros _ _ mh v _ Hv. unfold Sibling.texture. by destruct cs, als; run.
Qed.

Lemma sibling_specular_keeps_default l lab sock fac ti s :
  s ≠ sock →
  keeps_default s (Sibling.color_factor_and_texture l lab sock fac ti).
Proof.
  intros Hne mh v Hlt Hv. unfold Sibling.color_factor_and_texture.
  destruct (truthy ti); run.
  - apply sibling_texture_keeps_default;
      [intros [= <-]; cbn [sock_node inputs] in Hlt; lia|done| |].
    + cbn [nodes]. rewrite length_app. lia.
    + cbn [defaults]. rewrite lookup_insert_ne; [done|].
      intros <-. cbn [sock_node inputs] in Hlt. lia.
  - by rewrite lookup_insert_ne.
Qed.

End Importer.

(** * Concrete runs *)

(** The importer with the reference sub-builders. *)
Abbreviation glossiness_ref := (glossiness Sibling.from_dict Sibling.texture).
Abbreviation pbr_ref :=
  (pbr_specular_glossiness Sibling.from_dict Sibling.texture
     Sibling.base_color Sibling.emission Sibling.normal Sibling.occlusion
     Sibling.color_factor_and_texture).

(** glossinessFactor 0.25 and no texture: roughness 0.75. *)
Lemma glossiness_without_texture_witness :
  let ext : gmap string json := {["glossinessFactor" := JNum (PyFloat 0.25)]} in
  let mh := empty_helper plain_material in
  let sock := inputs 0 (Name "Roughness") in
  glossiness_ref ext (PyInt 0, PyInt 0) sock mh =
    Done tt (with_defaults mh (<[sock := JNum (PyFloat 0.75)]> (defaults mh))).
Proof.
  intros ext mh sock.
  refine (proj1 (glossiness_without_texture Sibling.from_dict Sibling.texture
                   ext (PyInt 0, PyInt 0) sock mh (PyFloat 0.25) 0.25 _ _ _ _));
    reflexivity.
Defined.

(** A texture and no factor: one SUBTRACT node, fed by the texture. *)
Lemma glossiness_texture_factor_one_witness :
  let mh := empty_helper plain_material in
  let sock := inputs 7 (Name "Roughness") in
  glossiness_ref ext_texture (PyInt 0, PyInt 0) sock mh =
    Done tt
      (Sibling.texture (mkTextureInfo 0 None) (PyInt (-340), PyInt 0)
         "SPECULAR GLOSSINESS" None (Some (inputs 0 (Idx 1))) true
         (mkMH [mkNode "ShaderNodeMath" (Some "1 - Glossiness")
                  (Some "SUBTRACT") (Some (PyInt (-140), PyInt (-50)))
                  None (Some true)]
            [(outputs 0 (Idx 0), sock)]
            {[inputs 0 (Idx 0) := JNum (PyFloat 1)]}
            None plain_material false false)).
Proof.
  intros mh sock.
  refine (proj1 (glossiness_texture_factor_one Sibling.from_dict
                   Sibling.texture ext_texture (PyInt 0) (PyInt 0) sock mh
                   (mkTextureInfo 0 None) _ _ _));
    vm_compute; reflexivity.
Defined.

(** A texture and the factor 0.5: a MULTIPLY node before the SUBTRACT node. *)
Lemma glossiness_texture_other_factor_witness :
  let mh := empty_helper plain_material in
  let sock := inputs 7 (Name "Roughness") in
  count_math
    (mkMH [mkNode "ShaderNodeMath" (Some "1 - Glossiness") (Some "SUBTRACT")
             (Some (PyInt (-140), PyInt (-50))) None (Some true);
           mkNode "ShaderNodeMath" (Some "Glossiness Factor") (Some "MULTIPLY")
             (Some (PyInt (-340), PyInt 0)) None (Some true)]
       [(outputs 0 (Idx 0), sock); (outputs 1 (Idx 0), inputs 0 (Idx 1))]
       (<[inputs 1 (Idx 1) := JNum (PyFloat 0.5)]>
          (<[inputs 0 (Idx 0) := JNum (PyFloat 1)]> ∅))
       None plain_material false false) = 2%nat.
Proof.
  intros mh sock.
  refine (proj1 (proj2 (glossiness_texture_other_factor Sibling.from_dict
                   Sibling.texture ext_texture_half (PyInt 0) (PyInt 0) sock mh
                   (mkTextureInfo 0 None) 0.5 _ _ _ _)));
    vm_compute; reflexivity.
Defined.

(** An occlusion texture and no settings node on the helper: one is made. *)
Lemma settings_node_made_once_witness :
  count_settings (final (pbr_ref occluded_helper)) = 1%nat ∧
  count_settings (final (pbr_ref (final (pbr_ref occluded_helper)))) =
  count_settings (final (pbr_ref occluded_helper)).
Proof.
  destruct (settings_node_made_once Sibling.from_dict Sibling.texture
              Sibling.base_color Sibling.emission Sibling.normal
              Sibling.occlusion Sibling.color_factor_and_texture
              sibling_texture_frame sibling_base_color_frame
              sibling_emission_frame sibling_normal_frame
              sibling_occlusion_frame sibling_specular_frame
              occluded_helper) as [[Hmade _] Hagain].
  split; [exact Hmade|exact Hagain].
Defined.

(** A settings node on the helper: it keeps its place and its width. *)
Lemma present_settings_node_untouched_witness :
  settings_node (final (pbr_ref settings_helper)) = Some 0%nat ∧
  nodes (final (pbr_ref settings_helper)) !! 0%nat = Some placed_settings_node.
Proof.
  destruct (proj1 (present_settings_node_untouched Sibling.from_dict
              Sibling.texture Sibling.base_color Sibling.emission
              Sibling.normal Sibling.occlusion
              Sibling.color_factor_and_texture
              sibling_texture_frame sibling_base_color_frame
              sibling_emission_frame sibling_normal_frame
              sibling_occlusion_frame sibling_specular_frame
              settings_helper) 0%nat placed_settings_node
              eq_refl eq_refl) as (Hs & Hn & _).
  split; [exact Hs|exact Hn].
Defined.

(** The IOR of the shader node made for a plain material. *)
Lemma ior_is_1000_witness :
  defaults (final (pbr_ref (empty_helper plain_material)))
    !! inputs 0 (Name "IOR") = Some (JNum (PyInt 1000)).
Proof.
  exact (proj1 (ior_is_1000 Sibling.from_dict Sibling.texture
           Sibling.base_color Sibling.emission Sibling.normal
           Sibling.occlusion Sibling.color_factor_and_texture
           sibling_texture_frame sibling_base_color_frame
           sibling_emission_frame sibling_normal_frame
           sibling_occlusion_frame sibling_specular_frame
           sibling_specular_keeps_default sibling_texture_keeps_default
           (empty_helper plain_material))).
Defined.

(** With no block active the layout is not moved: what C6 says of every
    layout fails here, where it asks for a shift by -20. *)
Lemma calc_locations_not_shifted_when_empty :
  let mh := empty_helper plain_material in
  calc_locations mh ∅ ≠
  shifted_by (claimed_shift (py_neg (stack_blocks mh ∅).2))
    (stack_blocks mh ∅).1.
Proof.
  intros mh H.
  apply (f_equal (λ m : gmap string location, m !! "occlusion")) in H.
  vm_compute in H. discriminate H.
Defined.

(** An occlusion texture and a glossiness texture: the two blocks are
    apart. *)
Lemma active_blocks_apart_witness :
  ∃ ya yb : pynum,
    block_y occluded_helper ext_texture Occlusion = Some ya ∧
    block_y occluded_helper ext_texture Glossiness = Some yb ∧
    (460 <=? abs (to_float ya - to_float yb))%float = true.
Proof.
  refine (proj1 (active_blocks_apart occluded_helper ext_texture)
            Occlusion Glossiness _ _ _); [discriminate|reflexivity|].
  vm_compute; reflexivity.
Defined.

(** No key at all: [glossiness] returns, with roughness 0.0. *)
Lemma missing_keys_use_defaults_witness :
  let mh := empty_helper plain_material in
  let sock := inputs 0 (Name "Roughness") in
  glossiness_ref ∅ (PyInt 0, PyInt 0) sock mh =
    Done tt (with_defaults mh (<[sock := JNum (PyFloat 0)]> (defaults mh))).
Proof.
  intros mh sock.
  exact (proj1 (proj2 (proj2 (missing_keys_use_defaults Sibling.from_dict
           Sibling.texture Sibling.base_color Sibling.emission
           Sibling.normal Sibling.occlusion Sibling.color_factor_and_texture
           mh ∅ (PyInt 0, PyInt 0) sock mh))) eq_refl eq_refl).
Defined.

(** The texture key bound to [None]. *)
Lemma falsy_texture_value_witness :
  let mh := empty_helper plain_material in
  let sock := inputs 0 (Name "Roughness") in
  glossiness_ref ext_null_texture (PyInt 0, PyInt 0) sock mh =
    Done tt (with_defaults mh (<[sock := JNum (PyFloat 0)]> (defaults mh))) ∧
  active mh ext_null_texture Glossiness = true.
Proof.
  intros mh sock.
  destruct (falsy_texture_value Sibling.from_dict Sibling.texture
              ext_null_texture JNull (PyInt 0, PyInt 0) sock mh 0%float
              eq_refl eq_refl eq_refl) as (Hrun & Hact & _).
  split; [exact Hrun|exact Hact].
Defined.

(** ** Concrete runs of the further properties *)

(** A factor that is a string, and no texture: a [TypeError]. *)
Lemma glossiness_factor_errors_witness :
  let ext : gmap string json := {["glossinessFactor" := JStr "high"]} in
  let mh := empty_helper plain_material in
  glossiness_ref ext (PyInt 0, PyInt 0) (inputs 0 (Name "Roughness")) mh =
    Raised TypeError mh.
Proof.
  intros ext mh.
  exact (glossiness_factor_errors Sibling.from_dict Sibling.texture ext
           (PyInt 0, PyInt 0) (inputs 0 (Name "Roughness")) mh eq_refl).
Defined.

(** A texture dict without an index. *)
Lemma glossiness_bad_texture_witness :
  let ext : gmap string json :=
    {["specularGlossinessTexture" := JObj {["texCoord" := JNum (PyInt 0)]}]} in
  let mh := empty_helper plain_material in
  glossiness_ref ext (PyInt 0, PyInt 0) (inputs 0 (Name "Roughness")) mh =
    Raised AssertionError mh.
Proof.
  intros ext mh.
  refine (proj1 (glossiness_bad_texture Sibling.from_dict Sibling.texture ext
                   (PyInt 0, PyInt 0) (inputs 0 (Name "Roughness")) mh
                   AssertionError _ _));
    vm_compute; reflexivity.
Defined.

(** A texture and a string as factor. *)
Lemma glossiness_factor_rejected_witness :
  let ext : gmap string json :=
    <["glossinessFactor" := JStr "high"]> ext_texture in
  let mh := empty_helper plain_material in
  let sock := inputs 7 (Name "Roughness") in
  glossiness_ref ext (PyInt 0, PyInt 0) sock mh =
    Raised TypeError
      (mkMH [mkNode "ShaderNodeMath" (Some "1 - Glossiness") (Some "SUBTRACT")
               (Some (PyInt (-140), PyInt (-50))) None (Some true);
             mkNode "ShaderNodeMath" (Some "Glossiness Factor")
               (Some "MULTIPLY") (Some (PyInt (-340), PyInt 0)) None None]
         [(outputs 0 (Idx 0), sock)]
         {[inputs 0 (Idx 0) := JNum (PyFloat 1)]}
         None plain_material false false).
Proof.
  intros ext mh sock.
  refine (glossiness_factor_rejected Sibling.from_dict Sibling.texture ext
            (PyInt 0) (PyInt 0) sock mh (mkTextureInfo 0 None) TypeError
            _ _ _);
    vm_compute; reflexivity.
Defined.

(** The texture key bound to a dict or to [None]: the same layout. *)
Lemma calc_locations_reads_presence_witness :
  calc_locations occluded_helper ext_texture =
  calc_locations settings_helper ext_null_texture.
Proof.
  apply calc_locations_reads_presence; vm_compute; reflexivity.
Defined.

(** The first and the last block. *)
Lemma blocks_stack_downwards_witness :
  ∃ ya yb : pynum,
    block_y occluded_helper ext_texture Occlusion = Some ya ∧
    block_y occluded_helper ext_texture Emission = Some yb ∧
    (to_float yb <=? to_float ya)%float = true ∧
    (to_float ya - to_float yb <=?
     to_float (py_neg (stack_blocks occluded_helper ext_texture).2))%float
      = true.
Proof.
  exact (blocks_stack_downwards occluded_helper ext_texture Occlusion Emission
           (list_elem_of_here _ _)).
Defined.

(** A factor of 3: the roughness is 0.0. *)
Lemma roughness_in_unit_interval_witness :
  let ext : gmap string json := {["glossinessFactor" := JNum (PyInt 3)]} in
  let mh := empty_helper plain_material in
  let sock := inputs 0 (Name "Roughness") in
  glossiness_ref ext (PyInt 0, PyInt 0) sock mh =
    Done tt (with_defaults mh (<[sock := JNum (PyFloat 0)]> (defaults mh))).
Proof.
  intros ext mh sock.
  refine (proj1 (roughness_in_unit_interval Sibling.from_dict Sibling.texture
                   ext (PyInt 0, PyInt 0) sock mh (PyInt 3) 3 _ _ _));
    reflexivity.
Defined.

(** No key at all, twice. *)
Lemma glossiness_unbound_idempotent_witness :
  let mh := empty_helper plain_material in
  let sock := inputs 0 (Name "Roughness") in
  glossiness_ref ∅ (PyInt 0, PyInt 0) sock
    (final (glossiness_ref ∅ (PyInt 0, PyInt 0) sock mh)) =
  glossiness_ref ∅ (PyInt 0, PyInt 0) sock mh.
Proof.
  intros mh sock.
  exact (glossiness_unbound_idempotent Sibling.from_dict Sibling.texture ∅
           (PyInt 0, PyInt 0) sock mh eq_refl).
Defined.

(** A texture and the factor 0.5 on a tree of one node. *)
Lemma glossiness_feeds_roughness_by_link_witness :
  let sock := inputs 0 (Name "Roughness") in
  ∃ (built : MaterialHelper) (tex_loc : location) (alpha : socket),
    glossiness_ref ext_texture_half (PyInt 0, PyInt 0) sock settings_helper =
      Done tt (Sibling.texture (mkTextureInfo 0 None) tex_loc
                 "SPECULAR GLOSSINESS" None (Some alpha) true built) ∧
    defaults built !! sock = defaults settings_helper !! sock ∧
    filter (λ l, l.2 = sock) (links built) =
      filter (λ l, l.2 = sock) (links settings_helper) ++
      [(outputs (length (nodes settings_helper)) (Idx 0), sock)] ∧
    (length (nodes settings_helper) ≤ sock_node alpha)%nat ∧
    sock_output alpha = false ∧
    alpha ≠ sock.
Proof.
  intros sock.
  refine (glossiness_feeds_roughness_by_link Sibling.from_dict Sibling.texture
            ext_texture_half (PyInt 0) (PyInt 0) sock settings_helper
            (mkTextureInfo 0 None) 0.5 _ _ _ _);
    [vm_compute; reflexivity|vm_compute; reflexivity|vm_compute; reflexivity|
     cbn; lia].
Defined.

(** The block at (-200, 440.0), where [calc_locations] puts it for a
    plain material with the texture key. *)
Lemma glossiness_nodes_left_to_right_witness :
  let mh := empty_helper plain_material in
  let sock := inputs 7 (Name "Roughness") in
  let y := PyFloat 440 in
  ∃ (built : MaterialHelper) (tx : Z) (alpha : socket),
    glossiness_ref ext_texture_half (PyInt (-200), y) sock mh =
      Done tt (Sibling.texture (mkTextureInfo 0 None) (PyInt tx, y)
                 "SPECULAR GLOSSINESS" None (Some alpha) true built) ∧
    Forall (λ nd, ∃ (nx : Z) (ny : pynum),
              node_location nd = Some (PyInt nx, ny) ∧
              tx < nx ∧ nx < -200 ∧ (ny = y ∨ ny = py_sub y (PyInt 50)))
      (drop (length (nodes mh)) (nodes built)).
Proof.
  intros mh sock y.
  refine (proj1 (glossiness_nodes_left_to_right Sibling.from_dict
                   Sibling.texture ext_texture_half (-200) y sock mh
                   (mkTextureInfo 0 None) 0.5 _ _ _));
    vm_compute; reflexivity.
Defined.

(** A tree that holds a node when the run starts. *)
Lemma pbr_tree_grows_witness :
  ∃ rest : list Node,
    nodes (final (pbr_ref settings_helper)) =
    nodes settings_helper ++
    mkNode "ShaderNodeBsdfPrincipled" None None
      (Some (PyInt 10, PyInt 300)) None None ::
    mkNode "ShaderNodeOutputMaterial" None None
      (Some (PyInt 300, PyInt 300)) None None :: rest.
Proof.
  exact (pbr_tree_grows Sibling.from_dict Sibling.texture
           Sibling.base_color Sibling.emission Sibling.normal
           Sibling.occlusion Sibling.color_factor_and_texture
           sibling_texture_frame sibling_base_color_frame
           sibling_emission_frame sibling_normal_frame
           sibling_occlusion_frame sibling_specular_frame
           settings_helper).
Defined.
